(** * NetSecSim: the monitoring and detection logic of the dashboards

    A shallow embedding of the polling code of
    [src/dashboard/netsec_dashboard.py] and [netsec_dashboard_simple.py]
    and of the route listing of [src/scripts/working_attack_simulator.py],
    with the properties the specification states about them.

    [src/dashboard/netsec_dashboard_v2.py] has no definitions here: its text
    breaks one-line string literals with a line feed between the quotes
    (l.191-192, l.540-541, l.559-560), so Python refuses the module with a
    SyntaxError and none of its functions computes anything.

    Python [str] values are lists of Unicode code points; the outcome of a
    [subprocess.run] call is data handed to the poll cycle, so that a cycle
    is a function of what the external commands answered. *)

From Stdlib Require Import ZArith String Ascii Lia DecimalString DecimalZ.
From stdpp Require Import gmap list.

#[local] Open Scope Z_scope.

(** ** Python string operations used by the dashboards *)

Module Py.

(** A [str]: the list of its code points. *)
Definition lit (s : string) : list N :=
  map N_of_ascii (list_ascii_of_string s).

(** [str.isspace] on one code point: the characters [str.strip()] and
    [str.split()] treat as white space. *)
Definition isspace (c : N) : bool :=
  ((9 <=? c) && (c <=? 13) || (28 <=? c) && (c <=? 32)
   || (c =? 133) || (c =? 160) || (c =? 5760)
   || (8192 <=? c) && (c <=? 8202)
   || (c =? 8232) || (c =? 8233) || (c =? 8239) || (c =? 8287)
   || (c =? 12288))%N.

Fixpoint lstrip (s : list N) : list N :=
  match s with
  | [] => []
  | c :: r => if isspace c then lstrip r else s
  end.

Definition rstrip (s : list N) : list N := rev (lstrip (rev s)).

(** [s.strip()] *)
Definition strip (s : list N) : list N := rstrip (lstrip s).

(** [s.split(sep)] for a one-character separator: never empty, and the
    empty string gives one empty piece. *)
Fixpoint split_on (sep : N) (s : list N) : list (list N) :=
  match s with
  | [] => [[]]
  | c :: r =>
      if (c =? sep)%N then [] :: split_on sep r
      else match split_on sep r with
           | w :: ws => (c :: w) :: ws
           | [] => [[c]]
           end
  end.

(** [s.split()]: the maximal runs of non-space characters. *)
Fixpoint split (s : list N) : list (list N) :=
  match s with
  | [] => []
  | c :: r =>
      if isspace c then split r
      else match r with
           | [] => [[c]]
           | c' :: _ =>
               if isspace c' then [c] :: split r
               else match split r with
                    | w :: ws => (c :: w) :: ws
                    | [] => [[c]]
                    end
           end
  end.

(** [s.startswith(p)] *)
Fixpoint startswith (p s : list N) : bool :=
  match p, s with
  | [], _ => true
  | _ :: _, [] => false
  | a :: p', b :: s' => (a =? b)%N && startswith p' s'
  end.

(** [sub in s] *)
Fixpoint contains (sub s : list N) : bool :=
  startswith sub s ||
  match s with
  | [] => false
  | _ :: r => contains sub r
  end.

(** [s.count(sub)]: occurrences from left to right that do not overlap;
    [skip] is the number of characters still covered by the last match. *)
Fixpoint count_from (sub : list N) (skip : nat) (s : list N) : Z :=
  match s with
  | [] => 0
  | _ :: r =>
      match skip with
      | S k => count_from sub k r
      | O =>
          if startswith sub s
          then 1 + count_from sub (length sub - 1) r
          else count_from sub 0 r
      end
  end.

Definition count (sub s : list N) : Z :=
  match sub with
  | [] => Z.of_nat (length s) + 1
  | _ :: _ => count_from sub 0 s
  end.

(** [len(l)] *)
Definition len {A} (l : list A) : Z := Z.of_nat (length l).

(** [x in l] for a list of strings *)
Definition mem (x : list N) (l : list (list N)) : bool :=
  bool_decide (x ∈ l).

Definition nl : N := 10%N.

End Py.

(** ** What the external commands answer during one poll cycle *)

(** The result of one [subprocess.run(..., capture_output=True, text=True,
    timeout=...)]: a [CompletedProcess] with its [returncode] and [stdout],
    or an exception ([TimeoutExpired], [OSError], ...). *)
Inductive proc : Type :=
| Completed (returncode : Z) (stdout : list N)
| Raised.

(** Everything a poll cycle reads from outside: [docker ps], and for each
    container the two [docker exec <container> vtysh -c ...] queries. *)
Record world : Type := {
  now : list N;                       (* datetime.now().isoformat() *)
  docker_ps : proc;                   (* docker ps --format {{.Names}} *)
  bgp_summary : list N -> proc;       (* show ip bgp summary *)
  show_ip_bgp : list N -> proc        (* show ip bgp *)
}.

Definition as100 : list N := Py.lit "as100".
Definition as200 : list N := Py.lit "as200".
Definition as300 : list N := Py.lit "as300".
Definition as400 : list N := Py.lit "as400".
Definition as500 : list N := Py.lit "as500".

(** ** src/dashboard/netsec_dashboard.py *)

Module Dashboard.

Record container_data : Type := {
  status : list N;
  routes : Z;
  under_attack : bool
}.

Record sessions : Type := {
  neighbors : Z;
  established : Z
}.

Record attack : Type := {
  type : list N;
  target : list N;
  network : list N
}.

Record data : Type := {
  timestamp : list N;
  containers : gmap (list N) container_data;
  bgp_sessions : gmap (list N) sessions;
  attacks : list attack
}.

(** The body of [for line in lines:] in [collect_network_data], on the
    two counters. *)
Definition count_line (acc : Z * Z) (line : list N) : Z * Z :=
  let '(neighbor_count, established_count) := acc in
  if negb (bool_decide (Py.strip line = []))
     && Py.contains (Py.lit ".") line
     && (8 <=? Py.len (Py.split line))
  then
    match Py.split line with
    | (parts0 :: _) as parts =>
        if (10 <=? Py.len parts) && (Py.count (Py.lit ".") parts0 =? 3)
        then
          let neighbor_count := neighbor_count + 1 in
          if negb (Py.contains (Py.lit "(Policy)") line)
          then (neighbor_count, established_count + 1)
          else (neighbor_count, established_count)
        else acc
    | [] => acc
    end
  else acc.

Definition count_lines (lines : list (list N)) : Z * Z :=
  fold_left count_line lines (0, 0).

(** From [lines = bgp_result.stdout.strip().split('\n')] to the pair
    stored under ['neighbors'] and ['established']. *)
Definition parse_summary (stdout : list N) : sessions :=
  let lines := Py.split_on Py.nl (Py.strip stdout) in
  let '(neighbor_count, established_count) := count_lines lines in
  {| neighbors := neighbor_count; established := established_count |}.

Definition running_containers (w : world) : list (list N) :=
  match docker_ps w with
  | Completed _ stdout =>
      if bool_decide (Py.strip stdout = []) then []
      else Py.split_on Py.nl (Py.strip stdout)
  | Raised => []
  end.

(** First [try] of the loop body: the session summary. *)
Definition poll_summary (w : world) (container : list N) (d : data) : data :=
  match bgp_summary w container with
  | Completed returncode stdout =>
      if returncode =? 0
      then {| timestamp := timestamp d;
              containers := containers d;
              bgp_sessions := <[container := parse_summary stdout]> (bgp_sessions d);
              attacks := attacks d |}
      else d
  | Raised =>
      {| timestamp := timestamp d;
         containers := containers d;
         bgp_sessions :=
           <[container := {| neighbors := 0; established := 0 |}]> (bgp_sessions d);
         attacks := attacks d |}
  end.

(** Second [try]: the route table and the hijack test.  It works on the
    local [container_data] and appends to [data['attacks']]. *)
Definition poll_routes (w : world) (container : list N)
    (cd : container_data) (d : data) : container_data * data :=
  match show_ip_bgp w container with
  | Completed returncode route_output =>
      if returncode =? 0 then
        let cd := {| status := status cd;
                     routes := Py.count (Py.lit "*>") route_output;
                     under_attack := under_attack cd |} in
        if Py.contains (Py.lit "8.8.8.0/24") route_output
           && negb (bool_decide (container = as300))
        then ({| status := status cd; routes := routes cd; under_attack := true |},
              {| timestamp := timestamp d;
                 containers := containers d;
                 bgp_sessions := bgp_sessions d;
                 attacks := attacks d ++
                   [{| type := Py.lit "prefix_hijack";
                       target := container;
                       network := Py.lit "8.8.8.0/24" |}] |})
        else (cd, d)
      else (cd, d)
  | Raised => (cd, d)
  end.

(** One turn of [for container in containers:]. *)
Definition poll_container (w : world) (running : list (list N))
    (d : data) (container : list N) : data :=
  let cd := {| status := if Py.mem container running
                         then Py.lit "running" else Py.lit "stopped";
               routes := 0;
               under_attack := false |} in
  let '(cd, d) :=
    if Py.mem container running
    then poll_routes w container cd (poll_summary w container d)
    else (cd, d) in
  {| timestamp := timestamp d;
     containers := <[container := cd]> (containers d);
     bgp_sessions := bgp_sessions d;
     attacks := attacks d |}.

Definition containers_list : list (list N) := [as100; as200; as300; as400; as500].

Definition collect_network_data (w : world) : data :=
  let d := {| timestamp := now w; containers := ∅; bgp_sessions := ∅; attacks := [] |} in
  fold_left (poll_container w (running_containers w)) containers_list d.

(** [NetworkTopologyWidget]: the edges of [setup_graph] and the colour
    [update_topology] gives each of them. *)
Inductive color : Type := green | red.

Definition edges : list (list N * list N) :=
  [(as100, as200); (as200, as300); (as200, as400); (as300, as500)].

(** [bgp_data.get(node, {}).get('established', 0)] *)
Definition get_established (bgp_data : gmap (list N) sessions) (node : list N) : Z :=
  match bgp_data !! node with
  | Some s => established s
  | None => 0
  end.

(** [bgp.get('neighbors', 0)] in [update_status] *)
Definition get_neighbors (bgp_data : gmap (list N) sessions) (node : list N) : Z :=
  match bgp_data !! node with
  | Some s => neighbors s
  | None => 0
  end.

Definition edge_color (bgp_data : gmap (list N) sessions)
    (edge : list N * list N) : color :=
  let '(src, dst) := edge in
  if (0 <? get_established bgp_data src) && (0 <? get_established bgp_data dst)
  then green else red.

(** [ContainerStatusWidget.update_status]: a container is shown ONLINE (or
    UNDER ATTACK) when its status is ['running'], OFFLINE otherwise. *)
Definition shown_offline (cd : container_data) : bool :=
  negb (bool_decide (status cd = Py.lit "running")).

(** [DataCollectionThread.run].  One turn of [while self.running:] reads
    the flag, then runs the [try] block, in which
    [collect_network_data] returns or an [Exception] is raised. *)
Inductive cycle : Type :=
| Collected (w : world)
| Failed (e : list N).

Record turn : Type := {
  running_flag : bool;          (* self.running, read by the loop test *)
  what_happens : cycle
}.

Inductive action : Type :=
| Emit (d : data)               (* self.data_updated.emit(data) *)
| Sleep (seconds : Z)           (* time.sleep(seconds) *)
| Print (message : list N).

Definition body (c : cycle) : list action :=
  match c with
  | Collected w => [Emit (collect_network_data w); Sleep 2]
  | Failed e => [Print (Py.lit "Data collection error: " ++ e); Sleep 5]
  end.

(** The actions of the loop on the turns given, and whether the loop has
    exited ([true]) or is about to start another turn ([false]). *)
Fixpoint run (turns : list turn) : list action * bool :=
  match turns with
  | [] => ([], false)
  | t :: rest =>
      if running_flag t
      then let '(acts, exited) := run rest in (body (what_happens t) ++ acts, exited)
      else ([], true)
  end.

End Dashboard.

(** ** src/dashboard/netsec_dashboard_simple.py *)

Module DashboardSimple.

Record attack : Type := {
  type : list N;
  target : list N
}.

(** The three locals of [update_data] the widgets are updated from. *)
Record state : Type := {
  container_data : gmap (list N) Dashboard.container_data;
  bgp_data : gmap (list N) Dashboard.sessions;
  attacks : list attack
}.

Definition count_line (acc : Z * Z) (line : list N) : Z * Z :=
  let '(neighbors, established) := acc in
  if Py.contains (Py.lit ".") line && (8 <=? Py.len (Py.split line))
  then
    match Py.split line with
    | (parts0 :: _) as parts =>
        if (10 <=? Py.len parts) && (Py.count (Py.lit ".") parts0 =? 3)
        then
          let neighbors := neighbors + 1 in
          if negb (Py.contains (Py.lit "(Policy)") line)
          then (neighbors, established + 1)
          else (neighbors, established)
        else acc
    | [] => acc
    end
  else acc.

Definition count_lines (lines : list (list N)) : Z * Z :=
  fold_left count_line lines (0, 0).

Definition parse_summary (stdout : list N) : Dashboard.sessions :=
  let lines := Py.split_on Py.nl (Py.strip stdout) in
  let '(neighbors, established) := count_lines lines in
  {| Dashboard.neighbors := neighbors; Dashboard.established := established |}.

Definition poll_summary (w : world) (container : list N) (s : state) : state :=
  match bgp_summary w container with
  | Completed returncode stdout =>
      if returncode =? 0
      then {| container_data := container_data s;
              bgp_data := <[container := parse_summary stdout]> (bgp_data s);
              attacks := attacks s |}
      else s
  | Raised =>
      {| container_data := container_data s;
         bgp_data :=
           <[container := {| Dashboard.neighbors := 0; Dashboard.established := 0 |}]>
             (bgp_data s);
         attacks := attacks s |}
  end.

(** [container_data[container]['routes'] = ...] and
    [container_data[container]['under_attack'] = True] update the entry
    stored at the top of the turn. *)
Definition poll_routes (w : world) (container : list N) (s : state) : state :=
  match show_ip_bgp w container with
  | Completed returncode route_output =>
      if returncode =? 0 then
        let set_routes cd :=
          {| Dashboard.status := Dashboard.status cd;
             Dashboard.routes := Py.count (Py.lit "*>") route_output;
             Dashboard.under_attack := Dashboard.under_attack cd |} in
        let s := {| container_data := alter set_routes container (container_data s);
                    bgp_data := bgp_data s;
                    attacks := attacks s |} in
        if Py.contains (Py.lit "8.8.8.0/24") route_output
           && negb (bool_decide (container = as300))
        then
          let set_attack cd :=
            {| Dashboard.status := Dashboard.status cd;
               Dashboard.routes := Dashboard.routes cd;
               Dashboard.under_attack := true |} in
          {| container_data := alter set_attack container (container_data s);
             bgp_data := bgp_data s;
             attacks := attacks s ++
               [{| type := Py.lit "prefix_hijack"; target := container |}] |}
        else s
      else s
  | Raised => s
  end.

Definition poll_container (w : world) (running : list (list N))
    (s : state) (container : list N) : state :=
  let s := {| container_data :=
                <[container :=
                    {| Dashboard.status := if Py.mem container running
                                           then Py.lit "running" else Py.lit "stopped";
                       Dashboard.routes := 0;
                       Dashboard.under_attack := false |}]> (container_data s);
              bgp_data := bgp_data s;
              attacks := attacks s |} in
  if Py.mem container running
  then poll_routes w container (poll_summary w container s)
  else s.

(** [update_data]: [Some] of what the widgets are updated with, or [None]
    when [docker ps] raised and the outer [except] only printed. *)
Definition update_data (w : world) : option state :=
  match docker_ps w with
  | Raised => None
  | Completed _ stdout =>
      let running_containers :=
        if bool_decide (Py.strip stdout = []) then []
        else Py.split_on Py.nl (Py.strip stdout) in
      Some (fold_left (poll_container w running_containers)
              [as100; as200; as300; as400; as500]
              {| container_data := ∅; bgp_data := ∅; attacks := [] |})
  end.

(** [TopologyWidget.update_topology]: a connection is drawn green when
    both ends have status ['running']. *)
Definition connections : list (list N * list N) :=
  [(as100, as200); (as200, as300); (as200, as400); (as300, as500)].

Definition is_running (cdata : gmap (list N) Dashboard.container_data)
    (node : list N) : bool :=
  match cdata !! node with
  | Some cd => bool_decide (Dashboard.status cd = Py.lit "running")
  | None => false
  end.

Definition connection_color (cdata : gmap (list N) Dashboard.container_data)
    (connection : list N * list N) : Dashboard.color :=
  let '(src, dst) := connection in
  if is_running cdata src && is_running cdata dst
  then Dashboard.green else Dashboard.red.

End DashboardSimple.

(** ** src/scripts/working_attack_simulator.py and bgp_attack_simulator.py *)

Module AttackSimulator.

(** [show_bgp_status]:
    [[l for l in result.stdout.split('\n') if l.strip().startswith('*>')]] *)
Definition routes (stdout : list N) : list (list N) :=
  List.filter (fun l => Py.startswith (Py.lit "*>") (Py.strip l))
    (Py.split_on Py.nl stdout).

(** [parts = route.split()]; [network = parts[1]] when [len(parts) >= 2]. *)
Definition network_of (route : list N) : option (list N) :=
  match Py.split route with
  | _ :: network :: _ => Some network
  | _ => None
  end.

(** [BGPAttackSimulator.as_ips] *)
Definition as_ips : gmap (list N) (list N) :=
  <[as100 := Py.lit "172.20.0.10"]>
  (<[as200 := Py.lit "172.20.0.20"]>
  (<[as300 := Py.lit "172.20.0.30"]>
  (<[as400 := Py.lit "172.20.0.40"]>
  (<[as500 := Py.lit "172.20.0.50"]> ∅)))).

End AttackSimulator.

(** ** The specification's notions, for comparison with the code *)

Module Spec.

(** An IPv4-address-shaped token, by the shape test the dashboards apply
    to a field: exactly three dots. *)
Definition address_shaped (token : list N) : bool :=
  Py.count (Py.lit ".") token =? 3.

(** A line whose first whitespace-delimited field is address-shaped. *)
Definition address_line (line : list N) : bool :=
  match Py.split line with
  | token :: _ => address_shaped token
  | [] => false
  end.

(** The policy-hold marker. *)
Definition policy_hold (line : list N) : bool :=
  Py.contains (Py.lit "(Policy)") line.

(** N: the address-shaped lines of a raw text; M: those of them that
    carry the marker. *)
Definition address_lines (raw : list N) : Z :=
  Py.len (List.filter address_line (Py.split_on Py.nl raw)).

Definition held_lines (raw : list N) : Z :=
  Py.len (List.filter (fun l => address_line l && policy_hold l)
            (Py.split_on Py.nl raw)).

(** The lines of a route table that begin with the best-path marker. *)
Definition best_path_lines (route_output : list N) : list (list N) :=
  List.filter (Py.startswith (Py.lit "*>")) (Py.split_on Py.nl route_output).

(** A node reports a best-path RouteEntry for [prefix]: a line beginning
    with the best-path marker whose first token after the marker is the
    prefix. *)
Definition reports_best_path (route_output prefix : list N) : bool :=
  existsb (fun route => bool_decide (AttackSimulator.network_of route = Some prefix))
    (AttackSimulator.routes route_output).

(** The peers a session summary reports as Established: the first field
    of every session line that does not carry the policy-hold marker. *)
Definition established_peers (summary : list N) : list (list N) :=
  omap (fun line => match Py.split line with
                    | peer :: _ => Some peer
                    | [] => None
                    end)
    (List.filter (fun l => address_line l && negb (policy_hold l))
       (Py.split_on Py.nl summary)).

(** A link is healthy when each end reports an Established session whose
    peer address is the address of the other end. *)
Definition link_healthy (summary_of : list N -> list N)
    (link : list N * list N) : bool :=
  let '(a, b) := link in
  match AttackSimulator.as_ips !! a, AttackSimulator.as_ips !! b with
  | Some addr_a, Some addr_b =>
      Py.mem addr_b (established_peers (summary_of a))
      && Py.mem addr_a (established_peers (summary_of b))
  | _, _ => false
  end.

End Spec.

(** ** Derived notions the theorems are stated with *)

(** A line the counting loops count as a neighbour: at least ten fields,
    the first with exactly three dots. *)
Definition counted_line (line : list N) : bool :=
  match Py.split line with
  | (parts0 :: _) as parts =>
      (10 <=? Py.len parts) && (Py.count (Py.lit ".") parts0 =? 3)
  | [] => false
  end.

(** A line that carries the marker the loops test for. *)
Definition marked_line (line : list N) : bool :=
  Py.contains (Py.lit "(Policy)") line.

Definition b2z (b : bool) : Z := if b then 1 else 0.

(** A summary line with eight fields, and one row of a summary table. *)
Definition short_summary : list N :=
  Py.lit "172.20.0.20 4 65200 12 14 0 0 0".

Definition summary_row : list N :=
  Py.lit "172.20.0.20 4 65200 12 14 0 0 0 00:05:11 3".

Definition held_row : list N :=
  Py.lit "172.20.0.30 4 65300 12 14 0 0 0 00:05:11 (Policy)".

(** [sub] occurs in [s]. *)
Definition substr (sub s : list N) : Prop :=
  exists pre post, s = pre ++ sub ++ post.

(** The command of a node failed: it raised (a timeout among others) or
    returned a non-zero exit code. *)
Definition failed (p : proc) : bool :=
  match p with
  | Raised => true
  | Completed returncode _ => negb (returncode =? 0)
  end.

(** Two worlds that differ at most in what node [f] answers. *)
Definition same_but (f : list N) (w w' : world) : Prop :=
  now w = now w' /\ docker_ps w = docker_ps w' /\
  (forall c, c <> f -> bgp_summary w c = bgp_summary w' c) /\
  (forall c, c <> f -> show_ip_bgp w c = show_ip_bgp w' c).

(** The number of positions of [s] at which the best-path marker starts. *)
Fixpoint marker_positions (s : list N) : Z :=
  match s with
  | [] => 0
  | _ :: r => b2z (Py.startswith (Py.lit "*>") s) + marker_positions r
  end.

(** A node has some session counted as established: it is listed by
    [docker ps], its summary query returned 0, and some line of the summary
    is counted and not marked. *)
Definition any_established (w : world) (c : list N) : bool :=
  Py.mem c (Dashboard.running_containers w) &&
  match bgp_summary w c with
  | Completed returncode stdout =>
      (returncode =? 0) &&
      existsb (fun l => counted_line l && negb (marked_line l))
        (Py.split_on Py.nl (Py.strip stdout))
  | Raised => false
  end.

(** What one turn of the polling loop leaves for its container. *)
Definition hijack_seen (w : world) (running : list (list N)) (c : list N) : bool :=
  Py.mem c running &&
  match show_ip_bgp w c with
  | Completed returncode route_output =>
      (returncode =? 0) && Py.contains (Py.lit "8.8.8.0/24") route_output
      && negb (bool_decide (c = as300))
  | Raised => false
  end.

Definition routes_seen (w : world) (running : list (list N)) (c : list N) : Z :=
  if Py.mem c running then
    match show_ip_bgp w c with
    | Completed returncode route_output =>
        if returncode =? 0 then Py.count (Py.lit "*>") route_output else 0
    | Raised => 0
    end
  else 0.

Definition container_entry (w : world) (running : list (list N)) (c : list N)
    : Dashboard.container_data :=
  {| Dashboard.status := if Py.mem c running then Py.lit "running" else Py.lit "stopped";
     Dashboard.routes := routes_seen w running c;
     Dashboard.under_attack := hijack_seen w running c |}.

Definition sessions_entry (w : world) (running : list (list N)) (c : list N)
    : option Dashboard.sessions :=
  if Py.mem c running then
    match bgp_summary w c with
    | Completed returncode stdout =>
        if returncode =? 0 then Some (Dashboard.parse_summary stdout) else None
    | Raised => Some {| Dashboard.neighbors := 0; Dashboard.established := 0 |}
    end
  else None.

Definition hijack_event (c : list N) : Dashboard.attack :=
  {| Dashboard.type := Py.lit "prefix_hijack";
     Dashboard.target := c;
     Dashboard.network := Py.lit "8.8.8.0/24" |}.

Definition simple_event (c : list N) : DashboardSimple.attack :=
  {| DashboardSimple.type := Py.lit "prefix_hijack";
     DashboardSimple.target := c |}.

(** The events of a cycle that name node [c]. *)
Definition events_for (c : list N) (attacks : list Dashboard.attack)
    : list Dashboard.attack :=
  List.filter (fun a => bool_decide (Dashboard.target a = c)) attacks.

(** [docker ps] output listing the five containers. *)
Definition all_up : proc :=
  Completed 0 (Py.lit "as100" ++ [Py.nl] ++ Py.lit "as200" ++ [Py.nl] ++
               Py.lit "as300" ++ [Py.nl] ++ Py.lit "as400" ++ [Py.nl] ++
               Py.lit "as500" ++ [Py.nl]).

(** All five containers up; as500 holds a route for 8.8.8.0/24 that is
    valid but not the best path. *)
Definition second_best_table : list N :=
  Py.lit "*  8.8.8.0/24 172.20.0.30 0 65300 i".

Definition second_best_world : world :=
  {| now := Py.lit "2024-01-01T00:00:00";
     docker_ps := all_up;
     bgp_summary := fun _ => Completed 0 [];
     show_ip_bgp := fun c =>
       if bool_decide (c = as500)
       then Completed 0 second_best_table
       else Completed 0 [] |}.

(** All five containers up; as500 has 8.8.8.0/24 as a best path. *)
Definition hijack_table : list N :=
  Py.lit "*> 8.8.8.0/24 0.0.0.0 0 32768 i".

Definition hijack_world : world :=
  {| now := Py.lit "2024-01-01T00:00:00";
     docker_ps := all_up;
     bgp_summary := fun _ => Completed 0 [];
     show_ip_bgp := fun c =>
       if bool_decide (c = as500)
       then Completed 0 hijack_table
       else Completed 0 [] |}.

(** All five containers up; both queries to as200 time out. *)
Definition timeout_world : world :=
  {| now := Py.lit "2024-01-01T00:00:00";
     docker_ps := all_up;
     bgp_summary := fun c =>
       if bool_decide (c = as200) then Raised else Completed 0 summary_row;
     show_ip_bgp := fun c =>
       if bool_decide (c = as200) then Raised
       else Completed 0 (Py.lit "*> 10.1.0.0/24 0.0.0.0 0 32768 i") |}.

(** All five containers up; the summary query to as500 times out, its
    route query answers with 8.8.8.0/24 as a best path. *)
Definition summary_down_world : world :=
  {| now := Py.lit "2024-01-01T00:00:00";
     docker_ps := all_up;
     bgp_summary := fun c =>
       if bool_decide (c = as500) then Raised else Completed 0 summary_row;
     show_ip_bgp := fun c =>
       if bool_decide (c = as500) then Completed 0 hijack_table
       else Completed 0 [] |}.

(** All five containers up; as200 has one session, with as100, and as400
    has one session, with as500. *)
Definition crossed_world : world :=
  {| now := Py.lit "2024-01-01T00:00:00";
     docker_ps := all_up;
     bgp_summary := fun c =>
       if bool_decide (c = as200)
       then Completed 0 (Py.lit "172.20.0.10 4 65100 12 14 0 0 0 00:05:11 3")
       else if bool_decide (c = as400)
       then Completed 0 (Py.lit "172.20.0.50 4 65500 12 14 0 0 0 00:05:11 3")
       else Completed 0 [];
     show_ip_bgp := fun _ => Completed 0 [] |}.

(** The session summary a node of a world printed, empty when there is
    none. *)
Definition summary_of (w : world) (c : list N) : list N :=
  match bgp_summary w c with
  | Completed _ stdout => stdout
  | Raised => []
  end.

(** All five containers up; the one line of every route table holds the
    marker twice. *)
Definition marker_twice_table : list N :=
  Py.lit "*> 10.1.0.0/24 172.20.0.20 0 65200 *>i".

Definition marker_twice_world : world :=
  {| now := Py.lit "2024-01-01T00:00:00";
     docker_ps := all_up;
     bgp_summary := fun _ => Completed 0 [];
     show_ip_bgp := fun _ => Completed 0 marker_twice_table |}.

(** The sum of a list of counts. *)
Definition total (counts : list Z) : Z := foldr Z.add 0 counts.

(** One turn of the loop with the stop flag not set. *)
Definition keeps_running (t : Dashboard.turn) : Prop :=
  Dashboard.running_flag t = true.

(** Three turns: a good cycle, a failing one, a good one. *)
Definition three_turns : list Dashboard.turn :=
  [{| Dashboard.running_flag := true; Dashboard.what_happens := Dashboard.Collected hijack_world |};
   {| Dashboard.running_flag := true;
      Dashboard.what_happens := Dashboard.Failed (Py.lit "boom") |};
   {| Dashboard.running_flag := true; Dashboard.what_happens := Dashboard.Collected timeout_world |}].

(** A test on lines that ignores white space at both ends of a line. *)
Definition tolerant (P : list N -> bool) : Prop :=
  P [] = false /\
  (forall c l, Py.isspace c = true -> P (c :: l) = P l) /\
  (forall l ws, Forall (fun c => Py.isspace c = true) ws -> P (l ++ ws) = P l).

(** ** Text formatting *)

Module Fmt.

(** [str(n)] for an [int], as an f-string field prints it. *)
Definition str_int (n : Z) : list N :=
  Py.lit (NilZero.string_of_int (Z.to_int n)).

(** [sep.join(items)] *)
Fixpoint join (sep : list N) (items : list (list N)) : list N :=
  match items with
  | [] => []
  | [x] => x
  | x :: rest => x ++ sep ++ join sep rest
  end.

(** [str(l)] for a list of names without quotes or escapes in them, as
    the container names are: ['as100', 'as200']. *)
Definition repr_names (l : list (list N)) : list N :=
  Py.lit "[" ++ join (Py.lit ", ") (map (fun s => Py.lit "'" ++ s ++ Py.lit "'") l)
  ++ Py.lit "]".

End Fmt.

(** ** src/dashboard/netsec_dashboard.py: the widgets and the main window *)

(** The result of a [subprocess.run] whose output is not looked at: it
    returned, or raised an exception whose text is [e]. *)
Inductive sent : Type :=
| Ran (returncode : Z)
| Threw (e : list N).

(** What [cleanup_attacks] of the main window does: a line for the attack
    log, or [subprocess.run(['docker', 'exec', container, 'vtysh', '-c',
    command], ..., timeout=timeout)]. *)
Inductive ui_action : Type :=
| LogAttack (message : list N)
| Exec (container command : list N) (timeout : Z).

Module DashboardWindow.

(** What [ContainerStatusWidget.update_status] sets on the widgets of one
    container. *)
Record labels : Type := {
  indicator : list N;       (* widgets['indicator'].setStyleSheet *)
  status_text : list N;     (* widgets['status'].setText *)
  status_style : list N;    (* widgets['status'].setStyleSheet *)
  bgp : list N;             (* widgets['bgp'].setText *)
  frame : list N            (* widgets['frame'].setStyleSheet *)
}.

(** One turn of the loop of [update_status]; [data] and [bgp_entry] are
    [container_data.get(container, {})] and [bgp_data.get(container, {})],
    [None] standing for the empty dict. *)
Definition update_label (data : option Dashboard.container_data)
    (bgp_entry : option Dashboard.sessions) : labels :=
  let status := match data with
                | Some d => Dashboard.status d
                | None => Py.lit "unknown"
                end in
  let under_attack := match data with
                      | Some d => Dashboard.under_attack d
                      | None => false
                      end in
  let established := match bgp_entry with
                     | Some s => Dashboard.established s
                     | None => 0
                     end in
  let neighbors := match bgp_entry with
                   | Some s => Dashboard.neighbors s
                   | None => 0
                   end in
  {| indicator :=
       if bool_decide (status = Py.lit "running")
       then Py.lit "color: " ++ (if under_attack then Py.lit "red" else Py.lit "green")
            ++ Py.lit "; font-size: 16px;"
       else Py.lit "color: gray; font-size: 16px;";
     status_text :=
       if bool_decide (status = Py.lit "running")
       then (if negb under_attack then Py.lit "ONLINE" else Py.lit "UNDER ATTACK")
       else Py.lit "OFFLINE";
     status_style :=
       if bool_decide (status = Py.lit "running")
       then (if under_attack then Py.lit "color: red;" else Py.lit "color: green;")
       else Py.lit "color: gray;";
     bgp := Py.lit "BGP: " ++ Fmt.str_int established ++ Py.lit "/"
            ++ Fmt.str_int neighbors;
     frame :=
       if under_attack
       then Py.lit "QFrame { border: 2px solid red; background-color: #ffe6e6; }"
       else Py.lit "QFrame { border: 1px solid #ccc; }" |}.

(** [update_status]: the widgets of the five containers of
    [self.status_labels] after the call. *)
Definition update_status (container_data : gmap (list N) Dashboard.container_data)
    (bgp_data : gmap (list N) Dashboard.sessions) : gmap (list N) labels :=
  fold_left
    (fun widgets container =>
       <[container := update_label (container_data !! container)
                        (bgp_data !! container)]> widgets)
    Dashboard.containers_list ∅.

(** [update_dashboard]:
    [sum(1 for data in container_data.values() if data.get('status') == 'running')] *)
Definition online_count (container_data : gmap (list N) Dashboard.container_data) : Z :=
  Py.len (List.filter
            (fun d => bool_decide (Dashboard.status d = Py.lit "running"))
            (map snd (map_to_list container_data))).

(** The status bar message of [update_dashboard]; [clock] is
    [datetime.now().strftime('%H:%M:%S')]. *)
Definition status_message (container_data : gmap (list N) Dashboard.container_data)
    (clock : list N) : list N :=
  Py.lit "Containers: " ++ Fmt.str_int (online_count container_data)
  ++ Py.lit "/5 online | Last update: " ++ clock.

(** The command [cleanup_attacks] sends to one container;
    [container[2:]] drops the two letters of the name. *)
Definition cleanup_command (container : list N) : list N :=
  Py.lit "configure terminal; router bgp 65" ++ drop 2 container
  ++ Py.lit "; no route-map POISON; no network 8.8.8.0/24; end; clear ip bgp * soft".

(** The [for] loop of [cleanup_attacks] inside its [try]: the commands
    sent, and the exception that ended the loop, if one did. *)
Fixpoint cleanup_loop (result : list N -> sent) (containers : list (list N))
    : list ui_action * option (list N) :=
  match containers with
  | [] => ([], None)
  | container :: rest =>
      let run := Exec container (cleanup_command container) 10 in
      match result container with
      | Ran _ => let '(acts, raised) := cleanup_loop result rest in (run :: acts, raised)
      | Threw e => ([run], Some e)
      end
  end.

Definition cleanup_attacks (result : list N -> sent) : list ui_action :=
  let '(acts, raised) := cleanup_loop result Dashboard.containers_list in
  LogAttack (Py.lit "Cleaning up all attacks...") :: acts ++
  [match raised with
   | None => LogAttack (9989%N :: Py.lit " All attacks cleaned up successfully")
   | Some e => LogAttack (10060%N :: Py.lit " Error during cleanup: " ++ e)
   end].

End DashboardWindow.

(** [NetworkTopologyWidget] of netsec_dashboard.py: what [update_topology]
    computes before it draws. *)
Module Topology.

(** The attributes of a node of [self.graph]. *)
Record node_data : Type := {
  status : list N;
  under_attack : bool
}.

Definition positions : gmap (list N) (Z * Z) :=
  <[as100 := (0, 1)]> (<[as200 := (1, 1)]> (<[as300 := (2, 1)]>
  (<[as400 := (1, 0)]> (<[as500 := (2, 0)]> ∅)))).

(** [setup_graph]: the five nodes, status 'unknown'. *)
Definition setup_graph : gmap (list N) node_data :=
  fold_left
    (fun graph container =>
       <[container := {| status := Py.lit "unknown"; under_attack := false |}]> graph)
    Dashboard.containers_list ∅.

(** The first loop of [update_topology]:
    [for container, data in container_data.items():
       if container in self.graph.nodes: ...] *)
Definition update_nodes (graph : gmap (list N) node_data)
    (container_data : gmap (list N) Dashboard.container_data)
    : gmap (list N) node_data :=
  foldr
    (fun '(container, data) graph =>
       if bool_decide (is_Some (graph !! container))
       then <[container := {| status := Dashboard.status data;
                              under_attack := Dashboard.under_attack data |}]> graph
       else graph)
    graph (map_to_list container_data).

(** The face colour and the edge colour of the circle of a node. *)
Definition node_colors (nd : node_data) : list N * list N :=
  if bool_decide (status nd = Py.lit "running")
  then (if under_attack nd then Py.lit "red" else Py.lit "lightgreen",
        if under_attack nd then Py.lit "darkred" else Py.lit "green")
  else (Py.lit "lightgray", Py.lit "gray").

(** The points the 'HIJACK!' arrows are drawn at ([xy]): one per attack of
    type 'prefix_hijack', each at [self.positions['as500']]. *)
Definition annotations (attack_data : list Dashboard.attack) : list (option (Z * Z)) :=
  map (fun _ => positions !! as500)
    (List.filter (fun a => bool_decide (Dashboard.type a = Py.lit "prefix_hijack"))
       attack_data).

End Topology.

(** ** src/dashboard/netsec_dashboard_simple.py: the status widget and the
    status bar *)

Module DashboardSimpleWindow.

(** The widgets of one container, with what they show. *)
Record widgets : Type := {
  dot : list N;             (* style sheet of widgets['dot'] *)
  status_text : list N;     (* text of widgets['status'] *)
  status_style : list N;    (* style sheet of widgets['status'] *)
  bgp : list N;             (* text of widgets['bgp'] *)
  frame : list N            (* style sheet of widgets['frame'] *)
}.

(** One turn of the loop of [StatusWidget.update_status] on the widgets
    [w] of a container. *)
Definition update_widgets (w : widgets) (data : option Dashboard.container_data)
    (bgp_entry : option Dashboard.sessions) : widgets :=
  let status := match data with
                | Some d => Dashboard.status d
                | None => Py.lit "unknown"
                end in
  let under_attack := match data with
                      | Some d => Dashboard.under_attack d
                      | None => false
                      end in
  let established := match bgp_entry with
                     | Some s => Dashboard.established s
                     | None => 0
                     end in
  let neighbors := match bgp_entry with
                   | Some s => Dashboard.neighbors s
                   | None => 0
                   end in
  let bgp_text := Py.lit "BGP: " ++ Fmt.str_int established ++ Py.lit "/"
                  ++ Fmt.str_int neighbors in
  if bool_decide (status = Py.lit "running") then
    if under_attack then
      {| dot := Py.lit "color: red; font-size: 16px;";
         status_text := Py.lit "UNDER ATTACK";
         status_style := Py.lit "color: red; font-weight: bold;";
         bgp := bgp_text;
         frame := frame w ++ Py.lit "QFrame { border: 2px solid red; }" |}
    else
      {| dot := Py.lit "color: green; font-size: 16px;";
         status_text := Py.lit "ONLINE";
         status_style := Py.lit "color: green; font-weight: bold;";
         bgp := bgp_text;
         frame := frame w |}
  else
    {| dot := Py.lit "color: gray; font-size: 16px;";
       status_text := Py.lit "OFFLINE";
       status_style := Py.lit "color: gray;";
       bgp := bgp_text;
       frame := frame w |}.

(** [update_status]: [self.status_labels] after the call. *)
Definition update_status (status_labels : gmap (list N) widgets)
    (container_data : gmap (list N) Dashboard.container_data)
    (bgp_data : gmap (list N) Dashboard.sessions) : gmap (list N) widgets :=
  map_imap
    (fun container w =>
       Some (update_widgets w (container_data !! container) (bgp_data !! container)))
    status_labels.

(** The three numbers of the status bar of [update_data]. *)
Definition online (s : DashboardSimple.state) : Z :=
  Py.len (List.filter
            (fun d => bool_decide (Dashboard.status d = Py.lit "running"))
            (map snd (map_to_list (DashboardSimple.container_data s)))).

Definition total_routes (s : DashboardSimple.state) : Z :=
  foldr Z.add 0
    (map (fun kd => Dashboard.routes kd.2)
       (map_to_list (DashboardSimple.container_data s))).

Definition attack_count (s : DashboardSimple.state) : Z :=
  Py.len (DashboardSimple.attacks s).

Definition status_msg (s : DashboardSimple.state) : list N :=
  [128421; 65039]%N ++ Py.lit " Containers: " ++ Fmt.str_int (online s)
  ++ Py.lit "/5 | " ++ [128739; 65039]%N ++ Py.lit " Routes: "
  ++ Fmt.str_int (total_routes s) ++ Py.lit " | " ++ [9888; 65039]%N
  ++ Py.lit " Attacks: " ++ Fmt.str_int (attack_count s).

End DashboardSimpleWindow.

(** ** src/scripts/working_attack_simulator.py: the checks *)

(** The result of a [subprocess.run(..., capture_output=True, text=True)]
    of the script, with the text of the exception when it raised. *)
Inductive answer : Type :=
| Answered (returncode : Z) (stdout : list N)
| Broke (e : list N).

(** What the script writes: a call of [self.log(message, level)] or a
    [print(text)]. *)
Inductive output : Type :=
| Log (message level : list N)
| Print (text : list N).

Module Simulator.

(** What the commands of one [show_bgp_status] answer. *)
Record answers : Type := {
  ps : answer;                        (* docker ps --format {{.Names}} *)
  summary : list N -> answer;         (* show ip bgp summary *)
  table : list N -> answer            (* show ip bgp *)
}.

Definition required : list (list N) := [as100; as200; as300; as400; as500].

(** [check_containers]: what it logs and what it returns. *)
Definition check_containers (ps : answer) : list output * bool :=
  match ps with
  | Answered _ stdout =>
      let containers := Py.split_on Py.nl (Py.strip stdout) in
      let missing := List.filter (fun c => negb (Py.mem c containers)) required in
      match missing with
      | _ :: _ =>
          ([Log (Py.lit "Missing containers: " ++ Fmt.repr_names missing)
                (Py.lit "WARNING");
            Log (Py.lit "Run: ./fixed-setup.sh") (Py.lit "WARNING")],
           false)
      | [] =>
          ([Log (10003%N :: Py.lit " All containers running") (Py.lit "SUCCESS")],
           true)
      end
  | Broke e =>
      ([Log (Py.lit "Container check failed: " ++ e) (Py.lit "WARNING")], false)
  end.

(** The line of the first loop of [show_bgp_status] for one node. *)
Definition session_line (as_name : list N) (a : answer) : list N :=
  match a with
  | Answered returncode stdout =>
      if returncode =? 0 then
        let established := Py.count (Py.lit "Established") stdout in
        let total_lines :=
          Py.len (List.filter (Py.contains (Py.lit "172.20.0."))
                    (Py.split_on Py.nl stdout)) in
        if 0 <? established
        then 9989%N :: Py.lit " " ++ as_name ++ Py.lit ": " ++ Fmt.str_int established
             ++ Py.lit "/" ++ Fmt.str_int total_lines
             ++ Py.lit " BGP sessions established"
        else 9203%N :: Py.lit " " ++ as_name ++ Py.lit ": BGP sessions connecting..."
      else 10060%N :: Py.lit " " ++ as_name ++ Py.lit ": BGP not responding"
  | Broke _ => 10060%N :: Py.lit " " ++ as_name ++ Py.lit ": Connection failed"
  end.

(** [for route in routes[:3]: ...]: the sample lines. *)
Definition sample_lines (routes : list (list N)) : list (list N) :=
  omap (fun route =>
          match Py.split route with
          | _ :: network :: _ => Some (Py.lit "    " ++ [8226%N] ++ Py.lit " " ++ network)
          | _ => None
          end)
    (take 3 routes).

(** The lines of the second loop of [show_bgp_status] for one node. *)
Definition route_lines (as_name : list N) (a : answer) : list (list N) :=
  match a with
  | Answered returncode stdout =>
      if returncode =? 0 then
        let routes := AttackSimulator.routes stdout in
        (128203%N :: Py.lit " " ++ as_name ++ Py.lit ": Learning "
         ++ Fmt.str_int (Py.len routes) ++ Py.lit " routes")
        :: sample_lines routes
      else []
  | Broke _ => []
  end.

Definition show_bgp_status (w : answers) : list output :=
  let '(logged, ok) := check_containers (ps w) in
  if negb ok then logged
  else
    logged ++
    [Log (128269%N :: Py.lit " Checking BGP Status") (Py.lit "INFO");
     Print (Py.nl :: Py.lit "BGP Session Status:");
     Print (repeat 45%N 40)] ++
    map (fun as_name => Print (session_line as_name (summary w as_name))) required ++
    [Print (Py.nl :: Py.lit "Route Learning Status:");
     Print (repeat 45%N 40)] ++
    flat_map (fun as_name => map Print (route_lines as_name (table w as_name))) required.

(** The answers of the script's commands as the dashboards see them. *)
Definition as_proc (a : answer) : proc :=
  match a with
  | Answered returncode stdout => Completed returncode stdout
  | Broke _ => Raised
  end.

End Simulator.

(** ** src/scripts/bgp_attack_simulator.py: the status check *)

Module BGPSimulator.

(** The line [show_bgp_status] prints for one node. *)
Definition status_line (as_name : list N) (a : answer) : list N :=
  match a with
  | Answered returncode stdout =>
      if (returncode =? 0) && Py.contains (Py.lit "Established") stdout
      then 10003%N :: Py.lit " " ++ as_name ++ Py.lit ": "
           ++ Fmt.str_int (Py.count (Py.lit "Established") stdout)
           ++ Py.lit " BGP sessions established"
      else [9888; 65039]%N ++ Py.lit "  " ++ as_name ++ Py.lit ": BGP not ready"
  | Broke _ => 10060%N :: Py.lit " " ++ as_name ++ Py.lit ": Connection failed"
  end.

End BGPSimulator.

(** The rule [StatusWidget.update_status] adds to the style sheet of the
    frame of a container under attack. *)
Definition red_border : list N := Py.lit "QFrame { border: 2px solid red; }".

(** A sequence of calls of [StatusWidget.update_status], each with the
    dicts of its cycle. *)
Definition update_status_all
    (updates : list (gmap (list N) Dashboard.container_data *
                     gmap (list N) Dashboard.sessions))
    (status_labels : gmap (list N) DashboardSimpleWindow.widgets)
    : gmap (list N) DashboardSimpleWindow.widgets :=
  fold_left (fun labels u => DashboardSimpleWindow.update_status labels u.1 u.2)
    updates status_labels.

(** A flagged, running entry, and one cleared afterwards. *)
Definition flagged_entry : Dashboard.container_data :=
  {| Dashboard.status := Py.lit "running"; Dashboard.routes := 1;
     Dashboard.under_attack := true |}.

Definition cleared_entry : Dashboard.container_data :=
  {| Dashboard.status := Py.lit "running"; Dashboard.routes := 1;
     Dashboard.under_attack := false |}.

Definition plain_widgets : DashboardSimpleWindow.widgets :=
  {| DashboardSimpleWindow.dot := Py.lit "color: gray; font-size: 16px;";
     DashboardSimpleWindow.status_text := Py.lit "UNKNOWN";
     DashboardSimpleWindow.status_style := [];
     DashboardSimpleWindow.bgp := Py.lit "BGP: 0/0";
     DashboardSimpleWindow.frame := Py.lit "QFrame { border: 1px solid #ddd; }" |}.

(** The command [cleanup_attacks] runs on one container. *)
Definition cleanup_exec (container : list N) : ui_action :=
  Exec container (DashboardWindow.cleanup_command container) 10.

(** The command to a container returned, with whatever exit code. *)
Definition ran (result : list N -> sent) (container : list N) : Prop :=
  exists returncode, result container = Ran returncode.

(** The cleanup commands of as100 and as200 return, the one of as300 times
    out. *)
Definition third_times_out (container : list N) : sent :=
  if bool_decide (container = as300) then Threw (Py.lit "timed out") else Ran 1.

(** [docker ps] answers with the five names. *)
Definition all_up_answer : answer :=
  Answered 0 (Py.lit "as100" ++ [Py.nl] ++ Py.lit "as200" ++ [Py.nl] ++
              Py.lit "as300" ++ [Py.nl] ++ Py.lit "as400" ++ [Py.nl] ++
              Py.lit "as500" ++ [Py.nl]).

(** The values a run of the poll loop emitted, the seconds it slept, and
    the worlds of the turns in which the collection returned. *)
Definition emitted (acts : list Dashboard.action) : list Dashboard.data :=
  omap (fun a => match a with
                 | Dashboard.Emit d => Some d
                 | _ => None
                 end) acts.

Definition slept (acts : list Dashboard.action) : Z :=
  total (map (fun a => match a with
                       | Dashboard.Sleep seconds => seconds
                       | _ => 0
                       end) acts).

Definition collected (turns : list Dashboard.turn) : list world :=
  omap (fun t => match Dashboard.what_happens t with
                 | Dashboard.Collected w => Some w
                 | Dashboard.Failed _ => None
                 end) turns.

(** The line [show_bgp_status] prints for a sample network. *)
Definition sample_line (network : list N) : list N :=
  Py.lit "    " ++ [8226%N] ++ Py.lit " " ++ network.

(** A [docker ps] answer without as300, and a route table of four
    best-path lines. *)
Definition one_missing : answer :=
  Answered 0 (Py.lit "as100" ++ [Py.nl] ++ Py.lit "as200" ++ [Py.nl] ++
              Py.lit "as400" ++ [Py.nl] ++ Py.lit "as500").

Definition four_routes : list N :=
  Py.lit "*> 10.1.0.0/24 0.0.0.0" ++ [Py.nl] ++ Py.lit "*> 10.2.0.0/24 172.20.0.20"
  ++ [Py.nl] ++ Py.lit "*> 10.3.0.0/24 172.20.0.20" ++ [Py.nl]
  ++ Py.lit "*> 10.4.0.0/24 172.20.0.20".

(** * Properties *)

(** ** Strings *)

Example split_fields :
  Py.split (Py.lit "  172.20.0.20   4 65200 ") =
  [Py.lit "172.20.0.20"; Py.lit "4"; Py.lit "65200"].
Proof. reflexivity. Qed.

Example split_lines :
  Py.split_on Py.nl [97; 10; 10; 98; 10]%N = [[97]; []; [98]; []]%N.
Proof. reflexivity. Qed.

Example split_empty : Py.split_on Py.nl [] = [[]] /\ Py.split [] = [].
Proof. split; reflexivity. Qed.

Example count_dots : Py.count (Py.lit ".") (Py.lit "172.20.0.20") = 3.
Proof. reflexivity. Qed.

Example count_no_overlap : Py.count (Py.lit "aa") (Py.lit "aaaaa") = 2.
Proof. reflexivity. Qed.

Example strip_both : Py.strip (9%N :: Py.lit "  a b  " ++ [10%N]) = Py.lit "a b".
Proof. reflexivity. Qed.

Example contains_inside :
  Py.contains (Py.lit "8.8.8.0/24") (Py.lit "*> 18.8.8.0/24 0.0.0.0") = true.
Proof. reflexivity. Qed.

Lemma startswith_app p s :
  Py.startswith p s = true <-> exists r, s = p ++ r.
Proof.
  revert s; induction p as [|a p IH]; intros s; simpl.
  - split; eauto.
  - destruct s as [|b s]; simpl.
    + split; [discriminate | intros [r Hr]; discriminate].
    + rewrite andb_true_iff, N.eqb_eq, IH. split.
      * intros [-> [r ->]]. eauto.
      * intros [r Hr]. injection Hr as -> ->. eauto.
Qed.

Lemma contains_substr sub s :
  Py.contains sub s = true <-> substr sub s.
Proof.
  unfold substr. induction s as [|c s IH]; simpl.
  - rewrite orb_false_r, startswith_app. split.
    + intros [r Hr]. exists [], r. exact Hr.
    + intros (pre & post & H). destruct pre; simpl in H.
      * eauto.
      * discriminate.
  - rewrite orb_true_iff, startswith_app, IH. split.
    + intros [[r Hr] | (pre & post & ->)].
      * exists [], r. exact Hr.
      * exists (c :: pre), post. reflexivity.
    + intros (pre & post & H). destruct pre as [|c' pre]; simpl in H.
      * left. eauto.
      * injection H as -> ->. right. eauto.
Qed.

Lemma substr_refl s : substr s s.
Proof. exists [], []. simpl. by rewrite app_nil_r. Qed.

Lemma substr_trans a b c : substr a b -> substr b c -> substr a c.
Proof.
  intros (p1 & q1 & ->) (p2 & q2 & ->).
  exists (p2 ++ p1), (q1 ++ q2). by rewrite <- !app_assoc.
Qed.

Lemma substr_cons a c s : substr a s -> substr a (c :: s).
Proof. intros (p & q & ->). by exists (c :: p), q. Qed.

Lemma substr_app_r a s t : substr a s -> substr a (s ++ t).
Proof. intros (p & q & ->). exists p, (q ++ t). by rewrite <- !app_assoc. Qed.

Lemma substr_app_l a s t : substr a s -> substr a (t ++ s).
Proof. intros (p & q & ->). exists (t ++ p), q. by rewrite <- !app_assoc. Qed.

Lemma lstrip_decompose s :
  exists pre, s = pre ++ Py.lstrip s /\ Forall (fun c => Py.isspace c = true) pre.
Proof.
  induction s as [|c s (pre & Hs & Hpre)]; simpl.
  - exists []. split; [reflexivity | constructor].
  - destruct (Py.isspace c) eqn:Hc.
    + exists (c :: pre). split; [simpl; congruence | by constructor].
    + exists []. split; [reflexivity | constructor].
Qed.

Lemma lstrip_nil s :
  Py.lstrip s = [] <-> Forall (fun c => Py.isspace c = true) s.
Proof.
  induction s as [|c s IH]; simpl.
  - split; [constructor | reflexivity].
  - destruct (Py.isspace c) eqn:Hc.
    + rewrite IH. split; [by constructor | by inversion 1].
    + split; [discriminate | inversion 1; congruence].
Qed.

Lemma strip_nil s :
  Py.strip s = [] <-> Forall (fun c => Py.isspace c = true) s.
Proof.
  unfold Py.strip, Py.rstrip. split.
  - intros H. apply (f_equal (@rev N)) in H. rewrite rev_involutive in H.
    simpl in H. apply lstrip_nil in H.
    destruct (lstrip_decompose s) as (pre & Hs & Hpre).
    rewrite Hs. apply Forall_app. split; [exact Hpre|].
    apply Forall_forall. intros c Hc.
    rewrite Forall_forall in H. apply H.
    apply list_elem_of_In, in_rev, list_elem_of_In. by rewrite rev_involutive.
  - intros H.
    assert (Hl : Py.lstrip s = []) by by apply lstrip_nil.
    by rewrite Hl.
Qed.

Lemma strip_substr s : substr (Py.strip s) s.
Proof.
  unfold Py.strip, Py.rstrip.
  destruct (lstrip_decompose s) as (pre & Hs & _).
  destruct (lstrip_decompose (rev (Py.lstrip s))) as (pre' & Hs' & _).
  apply (f_equal (@rev N)) in Hs'. rewrite rev_involutive, rev_app_distr in Hs'.
  exists pre, (rev pre'). by rewrite <- Hs', <- Hs.
Qed.

Lemma split_nil s :
  Py.split s = [] <-> Forall (fun c => Py.isspace c = true) s.
Proof.
  induction s as [|c s IH]; simpl.
  - split; [constructor | reflexivity].
  - destruct (Py.isspace c) eqn:Hc.
    + rewrite IH. split; [by constructor | by inversion 1].
    + split.
      * destruct s as [|c' s]; [discriminate|].
        destruct (Py.isspace c'); [discriminate|].
        destruct (Py.split (c' :: s)); discriminate.
      * inversion 1; congruence.
Qed.

(** When a string starts with a non-space character, its first field is a
    prefix of it. *)
Lemma split_head_prefix s c r w ws :
  s = c :: r -> Py.isspace c = false -> Py.split s = w :: ws ->
  exists rest, s = w ++ rest.
Proof.
  revert c r w ws. induction s as [|c0 s IH]; intros c r w ws Hs Hc Hsp.
  - discriminate.
  - injection Hs as -> ->. simpl in Hsp. rewrite Hc in Hsp.
    destruct r as [|c' r'].
    + injection Hsp as <- <-. by exists [].
    + destruct (Py.isspace c') eqn:Hc'.
      * injection Hsp as <- <-. by exists (c' :: r').
      * destruct (Py.split (c' :: r')) as [|w0 ws0] eqn:H0.
        -- injection Hsp as <- <-. by exists (c' :: r').
        -- injection Hsp as <- <-.
           destruct (IH c' r' w0 ws0 eq_refl Hc' eq_refl) as [rest Hrest].
           exists rest. simpl. by rewrite <- Hrest.
Qed.

(** Every field of [s.split()] occurs in [s]. *)
Lemma split_substr s w : w ∈ Py.split s -> substr w s.
Proof.
  revert w. induction s as [|c s IH]; intros w Hw; simpl in Hw.
  - by apply elem_of_nil in Hw.
  - destruct (Py.isspace c) eqn:Hc.
    + apply substr_cons. by apply IH.
    + destruct s as [|c' s'].
      * apply list_elem_of_singleton in Hw as ->. apply substr_refl.
      * destruct (Py.isspace c') eqn:Hc'.
        -- apply elem_of_cons in Hw as [-> | Hw].
           ++ by exists [], (c' :: s').
           ++ apply substr_cons. by apply IH.
        -- destruct (Py.split (c' :: s')) as [|w0 ws0] eqn:H0.
           ++ apply list_elem_of_singleton in Hw as ->. by exists [], (c' :: s').
           ++ apply elem_of_cons in Hw as [-> | Hw].
              ** destruct (split_head_prefix _ c' s' w0 ws0 eq_refl Hc' H0)
                   as [rest Hrest].
                 exists [], rest. simpl. by rewrite <- Hrest.
              ** apply substr_cons. apply IH. by right.
Qed.

Lemma split_on_head_prefix sep s w ws :
  Py.split_on sep s = w :: ws -> exists rest, s = w ++ rest.
Proof.
  revert w ws. induction s as [|c s IH]; intros w ws H; simpl in H.
  - injection H as <- <-. by exists [].
  - destruct (c =? sep)%N.
    + injection H as <- <-. by exists (c :: s).
    + destruct (Py.split_on sep s) as [|w0 ws0] eqn:H0.
      * injection H as <- <-. by exists s.
      * injection H as <- <-. destruct (IH w0 ws0 eq_refl) as [rest ->].
        by exists rest.
Qed.

(** Every piece of [s.split(sep)] occurs in [s]. *)
Lemma split_on_substr sep s l : l ∈ Py.split_on sep s -> substr l s.
Proof.
  revert l. induction s as [|c s IH]; intros l Hl; simpl in Hl.
  - apply list_elem_of_singleton in Hl as ->. apply substr_refl.
  - destruct (c =? sep)%N.
    + apply elem_of_cons in Hl as [-> | Hl].
      * by exists [], (c :: s).
      * apply substr_cons. by apply IH.
    + destruct (Py.split_on sep s) as [|w0 ws0] eqn:H0.
      * apply list_elem_of_singleton in Hl as ->. by exists [], s.
      * apply elem_of_cons in Hl as [-> | Hl].
        -- destruct (split_on_head_prefix sep s w0 ws0 H0) as [rest ->].
           by exists [], rest.
        -- apply substr_cons. apply IH. by right.
Qed.

Lemma count_from_nonneg sub k s : 0 <= Py.count_from sub k s.
Proof.
  revert k. induction s as [|c s IH]; intros k; cbn [Py.count_from]; [lia|].
  destruct k; [|apply IH].
  destruct (Py.startswith sub (c :: s)).
  - specialize (IH (length sub - 1)%nat). lia.
  - apply IH.
Qed.

(** A positive [count] means an occurrence. *)
Lemma count_from_pos sub k s :
  0 < Py.count_from sub k s -> substr sub s.
Proof.
  revert k. induction s as [|c s IH]; intros k; cbn [Py.count_from]; [lia|].
  destruct k as [|k].
  - destruct (Py.startswith sub (c :: s)) eqn:Hst.
    + intros _. apply contains_substr. cbn [Py.contains]. by rewrite Hst.
    + intros H. apply substr_cons. by apply (IH 0%nat).
  - intros H. apply substr_cons. by apply (IH k).
Qed.

Lemma count_dot_contains token :
  Py.count (Py.lit ".") token = 3 -> Py.contains (Py.lit ".") token = true.
Proof.
  intros H. apply contains_substr. apply (count_from_pos _ 0%nat).
  change (Py.count (Py.lit ".") token) with (Py.count_from (Py.lit ".") 0 token) in H.
  lia.
Qed.

(** ** The session counting loops *)

Ltac split_if :=
  match goal with
  | |- (if ?b then _ else _) = _ => destruct b; reflexivity
  end.

Lemma counted_line_guard line :
  counted_line line = true ->
  Py.strip line <> [] /\ Py.contains (Py.lit ".") line = true /\
  8 <= Py.len (Py.split line).
Proof.
  unfold counted_line. destruct (Py.split line) as [|parts0 parts] eqn:Hsp;
    [discriminate|].
  rewrite andb_true_iff, Z.leb_le, Z.eqb_eq. intros [Hlen Hdots].
  split; [|split].
  - intros Hnil. apply strip_nil, split_nil in Hnil. congruence.
  - apply contains_substr. apply substr_trans with parts0.
    + apply contains_substr. by apply count_dot_contains.
    + apply split_substr. rewrite Hsp. by left.
  - unfold Py.len in *. lia.
Qed.

Lemma dashboard_count_line acc line :
  Dashboard.count_line acc line =
  (acc.1 + b2z (counted_line line),
   acc.2 + b2z (counted_line line && negb (marked_line line))).
Proof.
  destruct acc as [n e]. unfold Dashboard.count_line. cbn [fst snd].
  destruct (counted_line line) eqn:Hc.
  - destruct (counted_line_guard line Hc) as (Hs & Hd & Hl).
    rewrite Hd. rewrite bool_decide_eq_false_2 by exact Hs.
    apply Z.leb_le in Hl. rewrite Hl. cbn [negb andb].
    unfold counted_line in Hc.
    destruct (Py.split line) as [|parts0 parts]; [discriminate|].
    rewrite Hc. unfold marked_line.
    destruct (Py.contains (Py.lit "(Policy)") line); simpl; f_equal; lia.
  - unfold counted_line in Hc.
    assert (Hn : (n, e) = (n + b2z false, e + b2z (false && negb (marked_line line))))
      by (simpl; f_equal; lia).
    rewrite <- Hn.
    destruct (Py.split line) as [|parts0 parts].
    + split_if.
    + rewrite Hc. split_if.
Qed.

Lemma simple_count_line acc line :
  DashboardSimple.count_line acc line =
  (acc.1 + b2z (counted_line line),
   acc.2 + b2z (counted_line line && negb (marked_line line))).
Proof.
  destruct acc as [n e]. unfold DashboardSimple.count_line. cbn [fst snd].
  destruct (counted_line line) eqn:Hc.
  - destruct (counted_line_guard line Hc) as (Hs & Hd & Hl).
    rewrite Hd. apply Z.leb_le in Hl. rewrite Hl. cbn [andb].
    unfold counted_line in Hc.
    destruct (Py.split line) as [|parts0 parts]; [discriminate|].
    rewrite Hc. unfold marked_line.
    destruct (Py.contains (Py.lit "(Policy)") line); simpl; f_equal; lia.
  - unfold counted_line in Hc.
    assert (Hn : (n, e) = (n + b2z false, e + b2z (false && negb (marked_line line))))
      by (simpl; f_equal; lia).
    rewrite <- Hn.
    destruct (Py.split line) as [|parts0 parts].
    + split_if.
    + rewrite Hc. split_if.
Qed.

(** The counters after the loop, from any starting values. *)
Lemma fold_count_lines (step : Z * Z -> list N -> Z * Z) lines acc :
  (forall a l, step a l =
     (a.1 + b2z (counted_line l),
      a.2 + b2z (counted_line l && negb (marked_line l)))) ->
  fold_left step lines acc =
  (acc.1 + Py.len (List.filter counted_line lines),
   acc.2 + Py.len (List.filter (fun l => counted_line l && negb (marked_line l)) lines)).
Proof.
  intros Hstep. revert acc. induction lines as [|l lines IH]; intros [n e].
  - unfold Py.len. simpl. f_equal; lia.
  - cbn [fold_left]. rewrite IH, Hstep. cbn [fst snd List.filter].
    unfold Py.len.
    destruct (counted_line l); destruct (marked_line l); simpl length; simpl b2z;
      f_equal; lia.
Qed.

Lemma filter_unmarked lines :
  Py.len (List.filter (fun l => counted_line l && negb (marked_line l)) lines) =
  Py.len (List.filter counted_line lines) -
  Py.len (List.filter (fun l => counted_line l && marked_line l) lines).
Proof.
  unfold Py.len. induction lines as [|l lines IH]; [reflexivity|].
  cbn [List.filter].
  destruct (counted_line l); destruct (marked_line l); simpl andb; simpl length; lia.
Qed.

Lemma filter_len_bounds (f g : list N -> bool) lines :
  0 <= Py.len (List.filter (fun l => f l && g l) lines) <=
  Py.len (List.filter f lines).
Proof.
  unfold Py.len. induction lines as [|l lines IH]; [simpl; lia|].
  cbn [List.filter].
  destruct (f l); destruct (g l); simpl andb; simpl length; lia.
Qed.

(** ** Stripping the text does not change what is counted *)

Lemma strip_decompose s :
  exists pre post,
    s = pre ++ Py.strip s ++ post /\
    Forall (fun c => Py.isspace c = true) pre /\
    Forall (fun c => Py.isspace c = true) post.
Proof.
  unfold Py.strip, Py.rstrip.
  destruct (lstrip_decompose s) as (pre & Hs & Hpre).
  destruct (lstrip_decompose (rev (Py.lstrip s))) as (pre' & Hs' & Hpre').
  apply (f_equal (@rev N)) in Hs'. rewrite rev_involutive, rev_app_distr in Hs'.
  exists pre, (rev pre'). split; [by rewrite <- Hs', <- Hs|].
  split; [exact Hpre|]. apply Forall_forall. intros c Hc.
  rewrite Forall_forall in Hpre'. apply Hpre'.
  by apply list_elem_of_In, in_rev, list_elem_of_In.
Qed.

Lemma split_on_nonempty sep s : Py.split_on sep s <> [].
Proof.
  destruct s as [|c r]; cbn [Py.split_on]; [done|].
  destruct (c =? sep)%N; [done|]. by destruct (Py.split_on sep r).
Qed.

Lemma substr_Forall (Q : N -> Prop) l s : substr l s -> Forall Q s -> Forall Q l.
Proof.
  intros (p & q & ->) H. apply Forall_app in H as [_ H].
  by apply Forall_app in H as [H _].
Qed.

Lemma tolerant_space_line P l :
  tolerant P -> Forall (fun c => Py.isspace c = true) l -> P l = false.
Proof.
  intros (H0 & _ & Hr) Hl. by rewrite <- (Hr [] l Hl) in H0.
Qed.

Lemma filter_space_lines P s :
  tolerant P -> Forall (fun c => Py.isspace c = true) s ->
  List.filter P (Py.split_on Py.nl s) = [].
Proof.
  intros HP Hs.
  assert (H : Forall (fun l => P l = false) (Py.split_on Py.nl s)).
  { apply Forall_forall. intros l Hl. apply tolerant_space_line; [done|].
    eapply substr_Forall; [|exact Hs]. by apply split_on_substr with Py.nl. }
  induction H as [|l ls Hl _ IH]; [reflexivity|].
  cbn [List.filter]. by rewrite Hl.
Qed.

Lemma split_on_leading P pre t :
  tolerant P -> Forall (fun c => Py.isspace c = true) pre ->
  Py.len (List.filter P (Py.split_on Py.nl (pre ++ t))) =
  Py.len (List.filter P (Py.split_on Py.nl t)).
Proof.
  intros HP Hpre. induction Hpre as [|c pre Hc _ IH]; [reflexivity|].
  destruct HP as (H0 & Hl & _).
  cbn [app Py.split_on]. destruct (c =? Py.nl)%N.
  - cbn [List.filter]. rewrite H0. exact IH.
  - destruct (Py.split_on Py.nl (pre ++ t)) as [|w ws] eqn:Hsp.
    + exfalso. exact (split_on_nonempty _ _ Hsp).
    + rewrite <- IH. cbn [List.filter]. rewrite (Hl c w Hc).
      by destruct (P w).
Qed.

Lemma split_on_trailing P t post :
  tolerant P -> Forall (fun c => Py.isspace c = true) post ->
  exists w ws w' ws' e,
    Py.split_on Py.nl t = w :: ws /\
    Py.split_on Py.nl (t ++ post) = w' :: ws' /\
    w' = w ++ e /\ Forall (fun c => Py.isspace c = true) e /\
    Py.len (List.filter P ws') = Py.len (List.filter P ws).
Proof.
  intros HP Hpost. induction t as [|c t IH].
  - cbn [app Py.split_on].
    destruct (Py.split_on Py.nl post) as [|w' ws'] eqn:Hsp;
      [exfalso; exact (split_on_nonempty _ _ Hsp)|].
    exists [], [], w', ws', w'. split; [done|]. split; [done|]. split; [done|].
    assert (Hall : Forall (fun l => Forall (fun c => Py.isspace c = true) l) (w' :: ws')).
    { rewrite <- Hsp. apply Forall_forall. intros l Hl.
      eapply substr_Forall; [|exact Hpost]. by apply split_on_substr with Py.nl. }
    apply Forall_cons in Hall as [Hw' Hws']. split; [exact Hw'|].
    assert (Hf : List.filter P ws' = []).
    { clear Hsp. induction Hws' as [|l ls Hl _ IHl]; [reflexivity|].
      cbn [List.filter]. by rewrite (tolerant_space_line P l HP Hl). }
    by rewrite Hf.
  - destruct IH as (w & ws & w' & ws' & e & H1 & H2 & Hw & He & Hlen).
    cbn [app Py.split_on]. rewrite H1, H2. destruct (c =? Py.nl)%N.
    + exists [], (w :: ws), [], (w' :: ws'), [].
      split; [done|]. split; [done|]. split; [done|]. split; [constructor|].
      cbn [List.filter]. destruct HP as (_ & _ & Hr).
      rewrite Hw, (Hr w e He). unfold Py.len in *.
      destruct (P w); cbn [length]; lia.
    + exists (c :: w), ws, (c :: w'), ws', e.
      split; [done|]. split; [done|]. split; [by rewrite Hw|]. by split.
Qed.

Lemma strip_keeps_filter P s :
  tolerant P ->
  Py.len (List.filter P (Py.split_on Py.nl (Py.strip s))) =
  Py.len (List.filter P (Py.split_on Py.nl s)).
Proof.
  intros HP. destruct (strip_decompose s) as (pre & post & Hs & Hpre & Hpost).
  rewrite Hs at 2. rewrite (split_on_leading P pre _ HP Hpre).
  destruct (split_on_trailing P (Py.strip s) post HP Hpost)
    as (w & ws & w' & ws' & e & H1 & H2 & Hw & He & Hlen).
  rewrite H1, H2. cbn [List.filter]. destruct HP as (_ & _ & Hr).
  rewrite Hw, (Hr w e He). unfold Py.len in *.
  destruct (P w); cbn [length]; lia.
Qed.

Lemma split_app_space l ws :
  Forall (fun c => Py.isspace c = true) ws -> Py.split (l ++ ws) = Py.split l.
Proof.
  intros Hws. induction l as [|c l IH].
  - cbn [app]. by apply split_nil.
  - cbn [app Py.split]. destruct (Py.isspace c); [exact IH|].
    destruct l as [|c' l'].
    + cbn [app] in *. destruct ws as [|s ws']; [reflexivity|].
      apply Forall_cons in Hws as Hs. destruct Hs as [Hs _].
      rewrite Hs. by rewrite IH.
    + cbn [app] in *. destruct (Py.isspace c'); by rewrite IH.
Qed.

Lemma space_not_char (a c : N) :
  Py.isspace a = false -> Py.isspace c = true -> (a =? c)%N = false.
Proof.
  intros Ha Hc. destruct (N.eqb_spec a c); [|reflexivity]. congruence.
Qed.

Lemma startswith_app_space m l ws :
  Forall (fun c => Py.isspace c = false) m ->
  Forall (fun c => Py.isspace c = true) ws ->
  Py.startswith m (l ++ ws) = Py.startswith m l.
Proof.
  intros Hm Hws. revert l. induction Hm as [|a m Ha _ IH]; intros l.
  - reflexivity.
  - destruct l as [|b l]; cbn [app Py.startswith].
    + destruct ws as [|s ws']; [reflexivity|].
      apply Forall_cons in Hws as [Hs _]. by rewrite (space_not_char a s).
    + by rewrite IH.
Qed.

Lemma contains_space_only a m ws :
  Py.isspace a = false -> Forall (fun c => Py.isspace c = true) ws ->
  Py.contains (a :: m) ws = false.
Proof.
  intros Ha. induction 1 as [|s ws Hs _ IH]; [reflexivity|].
  cbn [Py.contains Py.startswith]. by rewrite (space_not_char a s), IH.
Qed.

Lemma contains_app_space a m l ws :
  Forall (fun c => Py.isspace c = false) (a :: m) ->
  Forall (fun c => Py.isspace c = true) ws ->
  Py.contains (a :: m) (l ++ ws) = Py.contains (a :: m) l.
Proof.
  intros Hm Hws. induction l as [|b l IH].
  - cbn [app]. apply Forall_cons in Hm as [Ha _].
    by rewrite contains_space_only.
  - change ((b :: l) ++ ws) with (b :: (l ++ ws)).
    cbn [Py.contains]. rewrite IH.
    change (b :: (l ++ ws)) with ((b :: l) ++ ws).
    by rewrite startswith_app_space.
Qed.

Lemma contains_cons_space a m c l :
  Py.isspace a = false -> Py.isspace c = true ->
  Py.contains (a :: m) (c :: l) = Py.contains (a :: m) l.
Proof.
  intros Ha Hc. cbn [Py.contains Py.startswith].
  by rewrite (space_not_char a c).
Qed.

Lemma marker_no_space :
  Forall (fun c => Py.isspace c = false) (Py.lit "(Policy)").
Proof. apply (bool_decide_unpack _). vm_compute. exact I. Qed.

Lemma counted_line_tolerant : tolerant counted_line.
Proof.
  unfold tolerant, counted_line. split; [reflexivity|]. split.
  - intros c l Hc. cbn [Py.split]. by rewrite Hc.
  - intros l ws Hws. by rewrite split_app_space.
Qed.

Lemma marked_line_space_l c l :
  Py.isspace c = true -> marked_line (c :: l) = marked_line l.
Proof.
  intros Hc. unfold marked_line.
  change (Py.lit "(Policy)") with (40%N :: Py.lit "Policy)").
  by apply contains_cons_space.
Qed.

Lemma marked_line_space_r l ws :
  Forall (fun c => Py.isspace c = true) ws -> marked_line (l ++ ws) = marked_line l.
Proof.
  intros Hws. unfold marked_line. pose proof marker_no_space as Hm.
  change (Py.lit "(Policy)") with (40%N :: Py.lit "Policy)") in *.
  by apply contains_app_space.
Qed.

Lemma counted_marked_tolerant :
  tolerant (fun l => counted_line l && marked_line l).
Proof.
  destruct counted_line_tolerant as (H0 & Hl & Hr).
  split; [by rewrite H0|]. split.
  - intros c l Hc. by rewrite Hl, marked_line_space_l.
  - intros l ws Hws. by rewrite Hr, marked_line_space_r.
Qed.

(** ** What the parsers return *)

Lemma dashboard_parse_summary stdout :
  let lines := Py.split_on Py.nl (Py.strip stdout) in
  Dashboard.parse_summary stdout =
  {| Dashboard.neighbors := Py.len (List.filter counted_line lines);
     Dashboard.established :=
       Py.len (List.filter (fun l => counted_line l && negb (marked_line l)) lines) |}.
Proof.
  unfold Dashboard.parse_summary, Dashboard.count_lines.
  rewrite (fold_count_lines _ _ _ dashboard_count_line). reflexivity.
Qed.

Lemma simple_parse_summary stdout :
  DashboardSimple.parse_summary stdout = Dashboard.parse_summary stdout.
Proof.
  rewrite dashboard_parse_summary.
  unfold DashboardSimple.parse_summary, DashboardSimple.count_lines.
  rewrite (fold_count_lines _ _ _ simple_count_line). reflexivity.
Qed.

Example parse_two_rows :
  Dashboard.parse_summary (summary_row ++ [Py.nl] ++ held_row) =
  {| Dashboard.neighbors := 2; Dashboard.established := 1 |}.
Proof. vm_compute. reflexivity. Qed.

Example parse_short_row :
  Dashboard.parse_summary short_summary =
  {| Dashboard.neighbors := 0; Dashboard.established := 0 |}.
Proof. vm_compute. reflexivity. Qed.

(** C1, as stated, fails: a line of eight fields whose first field is the
    address 172.20.0.20 is an address-shaped line (N = 1, M = 0), and the
    parser counts no neighbour on it. *)
Lemma parse_summary_short_line_not_counted :
  ~ (Dashboard.neighbors (Dashboard.parse_summary short_summary) =
       Spec.address_lines short_summary /\
     Dashboard.established (Dashboard.parse_summary short_summary) =
       Spec.address_lines short_summary - Spec.held_lines short_summary).
Proof. vm_compute. intros [H _]. discriminate H. Qed.

(** No test of the first field alone gives the neighbour count: the same
    first field is counted on a line of ten fields and not on a line of
    one. *)
Lemma neighbors_not_by_first_field (shaped : list N -> bool) :
  ~ (forall raw,
       Dashboard.neighbors (Dashboard.parse_summary raw) =
       Py.len (List.filter
                 (fun l => match Py.split l with
                           | token :: _ => shaped token
                           | [] => false
                           end)
                 (Py.split_on Py.nl raw))).
Proof.
  intros H.
  pose proof (H summary_row) as H1.
  pose proof (H (Py.lit "172.20.0.20")) as H2.
  vm_compute in H1, H2.
  destruct (shaped _); discriminate.
Qed.

(** C1 (amended): for every raw session-summary text, the parsers of
    [netsec_dashboard.py] and [netsec_dashboard_simple.py] count as a
    neighbour exactly the lines of the text that have at least ten
    whitespace-delimited fields, the first with exactly three dots, and as
    established exactly those of them that do not contain "(Policy)": with
    N such lines, M of them marked, neighbours = N and established = N - M. *)
Theorem parse_summary_counts (stdout : list N) :
  let lines := Py.split_on Py.nl stdout in
  let n := Py.len (List.filter counted_line lines) in
  let m := Py.len (List.filter (fun l => counted_line l && marked_line l) lines) in
  Dashboard.neighbors (Dashboard.parse_summary stdout) = n /\
  Dashboard.established (Dashboard.parse_summary stdout) = n - m /\
  Dashboard.neighbors (DashboardSimple.parse_summary stdout) = n /\
  Dashboard.established (DashboardSimple.parse_summary stdout) = n - m.
Proof.
  intros lines n m. rewrite simple_parse_summary, dashboard_parse_summary.
  cbn [Dashboard.neighbors Dashboard.established].
  rewrite filter_unmarked.
  rewrite (strip_keeps_filter _ _ counted_line_tolerant).
  rewrite (strip_keeps_filter _ _ counted_marked_tolerant).
  fold lines. fold n m. auto.
Qed.

(** The one-row summary, read by the two counting loops that run. *)
Example summary_row_counts :
  Dashboard.parse_summary summary_row =
    {| Dashboard.neighbors := 1; Dashboard.established := 1 |} /\
  DashboardSimple.parse_summary summary_row =
    {| Dashboard.neighbors := 1; Dashboard.established := 1 |}.
Proof. vm_compute. split; reflexivity. Qed.

(** C8: on every raw session-summary text the counting loops of
    [netsec_dashboard.py] and [netsec_dashboard_simple.py] compute the same
    (neighbours, established) pair, and so do the loops alone on every list
    of lines.  These are the two variants that compute a pair at all: the
    loop of [netsec_dashboard_v2.py] is never run, since the separator
    literal of its [.split(...)] call at l.559-560 is broken by a line feed
    and Python refuses the module. *)
Theorem session_counting_variants_agree (stdout : list N) (lines : list (list N)) :
  DashboardSimple.parse_summary stdout = Dashboard.parse_summary stdout /\
  DashboardSimple.count_lines lines = Dashboard.count_lines lines.
Proof.
  split; [apply simple_parse_summary|].
  unfold DashboardSimple.count_lines, Dashboard.count_lines.
  rewrite (fold_count_lines _ _ _ simple_count_line).
  rewrite (fold_count_lines _ _ _ dashboard_count_line). reflexivity.
Qed.

(** C9: for every raw session-summary text the parsed counts satisfy
    0 <= established <= neighbours. *)
Theorem established_within_neighbors (stdout : list N) :
  0 <= Dashboard.established (Dashboard.parse_summary stdout) <=
  Dashboard.neighbors (Dashboard.parse_summary stdout).
Proof.
  rewrite dashboard_parse_summary. cbn [Dashboard.neighbors Dashboard.established].
  apply filter_len_bounds.
Qed.

(** ** One poll cycle *)

Lemma poll_container_char w running d c :
  Dashboard.poll_container w running d c =
  {| Dashboard.timestamp := Dashboard.timestamp d;
     Dashboard.containers := <[c := container_entry w running c]> (Dashboard.containers d);
     Dashboard.bgp_sessions :=
       match sessions_entry w running c with
       | Some s => <[c := s]> (Dashboard.bgp_sessions d)
       | None => Dashboard.bgp_sessions d
       end;
     Dashboard.attacks :=
       Dashboard.attacks d ++
       (if hijack_seen w running c then [hijack_event c] else []) |}.
Proof.
  unfold Dashboard.poll_container, container_entry, sessions_entry, hijack_seen,
    routes_seen, Dashboard.poll_routes, Dashboard.poll_summary.
  destruct d as [ts cs bs ats].
  destruct (Py.mem c running); cbn [andb].
  - destruct (bgp_summary w c) as [rc1 out1|]; [destruct (rc1 =? 0)|];
      (destruct (show_ip_bgp w c) as [rc2 out2|]; [destruct (rc2 =? 0)|]);
      cbn -[Py.lit Py.count Py.contains];
      try (destruct (Py.contains (Py.lit "8.8.8.0/24") out2 &&
                     negb (bool_decide (c = as300))));
      cbn -[Py.lit Py.count Py.contains]; by rewrite ?app_nil_r.
  - cbn. by rewrite app_nil_r.
Qed.

Lemma poll_loop_char w running cs d :
  let d' := fold_left (Dashboard.poll_container w running) cs d in
  Dashboard.timestamp d' = Dashboard.timestamp d /\
  Dashboard.attacks d' =
    Dashboard.attacks d ++ map hijack_event (List.filter (hijack_seen w running) cs) /\
  (forall c, Dashboard.containers d' !! c =
     if bool_decide (c ∈ cs) then Some (container_entry w running c)
     else Dashboard.containers d !! c) /\
  (forall c, Dashboard.bgp_sessions d' !! c =
     match (if bool_decide (c ∈ cs) then sessions_entry w running c else None) with
     | Some s => Some s
     | None => Dashboard.bgp_sessions d !! c
     end).
Proof.
  revert d. induction cs as [|c0 cs IH]; intros d; cbn [fold_left].
  - cbn. rewrite app_nil_r. repeat split; intros c; by rewrite bool_decide_eq_false_2
      by apply not_elem_of_nil.
  - pose proof (poll_container_char w running d c0) as Hd1.
    set (d1 := Dashboard.poll_container w running d c0) in *.
    destruct (IH d1) as (Ht & Ha & Hc & Hb).
    assert (Ft : Dashboard.timestamp d1 = Dashboard.timestamp d) by by rewrite Hd1.
    assert (Fa : Dashboard.attacks d1 =
                 Dashboard.attacks d ++
                 (if hijack_seen w running c0 then [hijack_event c0] else []))
      by by rewrite Hd1.
    assert (Fc : Dashboard.containers d1 =
                 <[c0 := container_entry w running c0]> (Dashboard.containers d))
      by by rewrite Hd1.
    assert (Fb : Dashboard.bgp_sessions d1 =
                 match sessions_entry w running c0 with
                 | Some s => <[c0:=s]> (Dashboard.bgp_sessions d)
                 | None => Dashboard.bgp_sessions d
                 end) by by rewrite Hd1.
    clearbody d1. clear Hd1.
    rewrite Ft in Ht. rewrite Fa in Ha.
    assert (Hc' := fun c => eq_trans (Hc c) (f_equal (fun m => if bool_decide (c ∈ cs)
       then Some (container_entry w running c) else m !! c) Fc)).
    assert (Hb' := fun c => eq_trans (Hb c) (f_equal (fun m =>
       match (if bool_decide (c ∈ cs) then sessions_entry w running c else None) with
       | Some s => Some s | None => m !! c end) Fb)).
    cbv beta in Hc', Hb'. clear Hc Hb Fc Fb Ft Fa.
    rename Hc' into Hc. rename Hb' into Hb.
    split; [exact Ht|]. split; [|split].
    + rewrite Ha. cbn [List.filter].
      destruct (hijack_seen w running c0); cbn [map];
        by rewrite <- app_assoc.
    + intros c. rewrite Hc.
      destruct (decide (c = c0)) as [->|Hne].
      * rewrite (bool_decide_eq_true_2 (c0 ∈ c0 :: cs)) by by left.
        case_bool_decide; [done|]. by rewrite lookup_insert_eq.
      * rewrite lookup_insert_ne by done.
        destruct (decide (c ∈ cs)) as [Hin|Hnin].
        -- rewrite !bool_decide_eq_true_2; [done | by right | done].
        -- rewrite !bool_decide_eq_false_2; [done | | done].
           intros [?|?]%elem_of_cons; done.
    + intros c. rewrite Hb.
      destruct (decide (c = c0)) as [->|Hne].
      * rewrite (bool_decide_eq_true_2 (c0 ∈ c0 :: cs)) by by left.
        case_bool_decide.
        -- destruct (sessions_entry w running c0); [done|].
           by destruct (sessions_entry w running c0).
        -- destruct (sessions_entry w running c0); [by rewrite lookup_insert_eq|done].
      * assert (Hl : (match sessions_entry w running c0 with
                      | Some s => <[c0:=s]> (Dashboard.bgp_sessions d)
                      | None => Dashboard.bgp_sessions d
                      end) !! c = Dashboard.bgp_sessions d !! c).
        { destruct (sessions_entry w running c0); [by rewrite lookup_insert_ne|done]. }
        rewrite Hl.
        destruct (decide (c ∈ cs)) as [Hin|Hnin].
        -- rewrite !bool_decide_eq_true_2; [done | by right | done].
        -- rewrite !bool_decide_eq_false_2; [done | | done].
           intros [?|?]%elem_of_cons; done.
Qed.

(** What [collect_network_data] returns, field by field. *)
Lemma collect_char w :
  let running := Dashboard.running_containers w in
  let d := Dashboard.collect_network_data w in
  Dashboard.timestamp d = now w /\
  Dashboard.attacks d =
    map hijack_event (List.filter (hijack_seen w running) Dashboard.containers_list) /\
  (forall c, Dashboard.containers d !! c =
     if bool_decide (c ∈ Dashboard.containers_list)
     then Some (container_entry w running c) else None) /\
  (forall c, Dashboard.bgp_sessions d !! c =
     if bool_decide (c ∈ Dashboard.containers_list)
     then sessions_entry w running c else None).
Proof.
  intros running d. unfold d, Dashboard.collect_network_data.
  destruct (poll_loop_char w running Dashboard.containers_list
              {| Dashboard.timestamp := now w; Dashboard.containers := ∅;
                 Dashboard.bgp_sessions := ∅; Dashboard.attacks := [] |})
    as (Ht & Ha & Hc & Hb).
  cbn [Dashboard.timestamp Dashboard.attacks Dashboard.containers
       Dashboard.bgp_sessions] in Ht, Ha, Hc, Hb.
  fold running in Ht, Ha, Hc, Hb |- *.
  split; [exact Ht|]. split; [exact Ha|]. split.
  - intros c. rewrite Hc. by case_bool_decide.
  - intros c. rewrite Hb. case_bool_decide; [|done].
    by destruct (sessions_entry w running c).
Qed.

Lemma containers_list_nodup : NoDup Dashboard.containers_list.
Proof.
  apply (bool_decide_unpack _). vm_compute. exact I.
Qed.

Lemma events_for_char (hs : list N -> bool) cs c :
  NoDup cs ->
  events_for c (map hijack_event (List.filter hs cs)) =
  if bool_decide (c ∈ cs) && hs c then [hijack_event c] else [].
Proof.
  unfold events_for. induction cs as [|c0 cs IH]; intros Hnd; [done|].
  apply NoDup_cons in Hnd as [Hnin Hnd]. specialize (IH Hnd).
  cbn [List.filter].
  destruct (decide (c = c0)) as [->|Hne].
  - rewrite (bool_decide_eq_true_2 (c0 ∈ c0 :: cs)) by by left.
    rewrite (bool_decide_eq_false_2 (c0 ∈ cs)) in IH by done.
    cbn [andb] in IH |- *.
    destruct (hs c0); [|exact IH].
    cbn [map List.filter hijack_event Dashboard.target].
    rewrite bool_decide_eq_true_2 by done. by rewrite IH.
  - assert (Heq : bool_decide (c ∈ c0 :: cs) = bool_decide (c ∈ cs)).
    { apply bool_decide_ext. rewrite elem_of_cons. intuition. }
    rewrite Heq.
    destruct (hs c0); [|exact IH].
    cbn [map List.filter hijack_event Dashboard.target].
    rewrite bool_decide_eq_false_2 by done. exact IH.
Qed.

Lemma simple_poll_container_char w running s c :
  let s' := DashboardSimple.poll_container w running s c in
  DashboardSimple.container_data s' =
    <[c := container_entry w running c]> (DashboardSimple.container_data s) /\
  DashboardSimple.attacks s' =
    DashboardSimple.attacks s ++
    (if hijack_seen w running c then [simple_event c] else []).
Proof.
  unfold DashboardSimple.poll_container, container_entry, hijack_seen,
    routes_seen, DashboardSimple.poll_routes, DashboardSimple.poll_summary.
  destruct s as [cs bs ats].
  destruct (Py.mem c running); cbn [andb].
  - destruct (bgp_summary w c) as [rc1 out1|]; [destruct (rc1 =? 0)|];
      (destruct (show_ip_bgp w c) as [rc2 out2|]; [destruct (rc2 =? 0)|]);
      cbn -[Py.lit Py.count Py.contains];
      try (destruct (Py.contains (Py.lit "8.8.8.0/24") out2 &&
                     negb (bool_decide (c = as300))));
      cbn -[Py.lit Py.count Py.contains];
      rewrite ?alter_insert_eq, ?app_nil_r; done.
  - cbn. by rewrite app_nil_r.
Qed.

Lemma simple_loop_char w running cs s :
  let s' := fold_left (DashboardSimple.poll_container w running) cs s in
  DashboardSimple.attacks s' =
    DashboardSimple.attacks s ++ map simple_event (List.filter (hijack_seen w running) cs) /\
  (forall c, DashboardSimple.container_data s' !! c =
     if bool_decide (c ∈ cs) then Some (container_entry w running c)
     else DashboardSimple.container_data s !! c).
Proof.
  revert s. induction cs as [|c0 cs IH]; intros s; cbn [fold_left].
  - cbn. rewrite app_nil_r. split; [done|]. intros c.
    by rewrite bool_decide_eq_false_2 by apply not_elem_of_nil.
  - destruct (simple_poll_container_char w running s c0) as [Fc Fa].
    set (s1 := DashboardSimple.poll_container w running s c0) in *.
    destruct (IH s1) as (Ha & Hc). clearbody s1.
    split.
    + rewrite Ha, Fa. cbn [List.filter].
      destruct (hijack_seen w running c0); cbn [map]; by rewrite <- app_assoc.
    + intros c. rewrite Hc, Fc.
      destruct (decide (c = c0)) as [->|Hne].
      * rewrite (bool_decide_eq_true_2 (c0 ∈ c0 :: cs)) by by left.
        case_bool_decide; [done|]. by rewrite lookup_insert_eq.
      * rewrite lookup_insert_ne by done.
        destruct (decide (c ∈ cs)) as [Hin|Hnin].
        -- rewrite !bool_decide_eq_true_2; [done | by right | done].
        -- rewrite !bool_decide_eq_false_2; [done | | done].
           intros [?|?]%elem_of_cons; done.
Qed.

Lemma hijack_seen_origin w running : hijack_seen w running as300 = false.
Proof.
  unfold hijack_seen. destruct (Py.mem as300 running); [|done].
  destruct (show_ip_bgp w as300) as [rc out|]; [|done].
  rewrite bool_decide_eq_true_2 by done. cbn [negb andb].
  by rewrite andb_false_r.
Qed.

Lemma no_event_for_unseen {A} (mk : list N -> A) (tg : A -> list N)
    (hs : list N -> bool) cs c :
  (forall x, tg (mk x) = x) -> hs c = false ->
  Forall (fun a => tg a <> c) (map mk (List.filter hs cs)).
Proof.
  intros Htg Hc. apply Forall_forall. intros a Ha.
  apply list_elem_of_In, in_map_iff in Ha as (x & <- & Hx).
  apply filter_In in Hx as [_ Hx]. rewrite Htg. congruence.
Qed.

(** C3: in every poll cycle of [netsec_dashboard.py] and of
    [netsec_dashboard_simple.py], whatever the commands answer, no event
    names as300 and the [under_attack] flag of as300 is false. *)
Theorem authorized_origin_never_flagged (w : world) :
  (let d := Dashboard.collect_network_data w in
   Forall (fun a => Dashboard.target a <> as300) (Dashboard.attacks d) /\
   exists cd, Dashboard.containers d !! as300 = Some cd /\
              Dashboard.under_attack cd = false) /\
  match DashboardSimple.update_data w with
  | Some s =>
      Forall (fun a => DashboardSimple.target a <> as300) (DashboardSimple.attacks s) /\
      exists cd, DashboardSimple.container_data s !! as300 = Some cd /\
                 Dashboard.under_attack cd = false
  | None => True
  end.
Proof.
  split.
  - destruct (collect_char w) as (_ & Ha & Hc & _). cbv zeta. split.
    + rewrite Ha. apply no_event_for_unseen; [done | apply hijack_seen_origin].
    + rewrite Hc. rewrite bool_decide_eq_true_2
        by (apply (bool_decide_unpack _); vm_compute; exact I).
      eexists. split; [reflexivity|]. apply hijack_seen_origin.
  - unfold DashboardSimple.update_data.
    destruct (docker_ps w) as [rc out|]; [|exact I].
    match goal with
    | |- context [fold_left (DashboardSimple.poll_container w ?r) ?cs ?s] =>
        destruct (simple_loop_char w r cs s) as [Ha Hc]
    end.
    split.
    + rewrite Ha. apply no_event_for_unseen; [done | apply hijack_seen_origin].
    + rewrite Hc. rewrite bool_decide_eq_true_2
        by (apply (bool_decide_unpack _); vm_compute; exact I).
      eexists. split; [reflexivity|]. apply hijack_seen_origin.
Qed.

(** C10: in the value a poll cycle returns, a container's [under_attack]
    flag is true exactly when the attacks list holds a prefix_hijack event
    whose target is that container, and no two events of the list have the
    same target. *)
Theorem cycle_data_consistent (w : world) :
  let d := Dashboard.collect_network_data w in
  (forall c cd, Dashboard.containers d !! c = Some cd ->
     (Dashboard.under_attack cd = true <->
      exists a, a ∈ Dashboard.attacks d /\
                Dashboard.type a = Py.lit "prefix_hijack" /\
                Dashboard.target a = c)) /\
  NoDup (map Dashboard.target (Dashboard.attacks d)).
Proof.
  destruct (collect_char w) as (_ & Ha & Hc & _). cbv zeta. split.
  - intros c cd Hcd. rewrite Hc in Hcd. case_bool_decide as Hin; [|done].
    injection Hcd as <-. cbn [container_entry Dashboard.under_attack].
    rewrite Ha. split.
    + intros Hs. exists (hijack_event c). split; [|done].
      apply list_elem_of_In, in_map, filter_In. split; [|exact Hs].
      by apply list_elem_of_In.
    + intros (a & Hin' & _ & Ht).
      apply list_elem_of_In, in_map_iff in Hin' as (x & <- & Hx).
      apply filter_In in Hx as [_ Hx]. cbn in Ht. by subst x.
  - rewrite Ha, map_map. cbn [hijack_event Dashboard.target].
    rewrite map_id. apply NoDup_ListNoDup, List.NoDup_filter, NoDup_ListNoDup.
    apply containers_list_nodup.
Qed.

(** ** The hijack test *)

(** The prefix of a best-path route entry occurs in the route table. *)
Lemma reports_best_path_contains route_output prefix :
  Spec.reports_best_path route_output prefix = true ->
  Py.contains prefix route_output = true.
Proof.
  unfold Spec.reports_best_path. intros H.
  apply existsb_exists in H as (route & Hroute & Hnet).
  apply bool_decide_eq_true in Hnet.
  apply contains_substr. apply substr_trans with route.
  - unfold AttackSimulator.network_of in Hnet.
    destruct (Py.split route) as [|p0 [|p1 ps]] eqn:Hsp; try discriminate.
    injection Hnet as ->. apply split_substr. rewrite Hsp. right. by left.
  - unfold AttackSimulator.routes in Hroute.
    apply filter_In in Hroute as [Hroute _].
    apply split_on_substr with Py.nl. by apply list_elem_of_In.
Qed.

Lemma events_for_cycle w c :
  c ∈ Dashboard.containers_list ->
  events_for c (Dashboard.attacks (Dashboard.collect_network_data w)) =
  if hijack_seen w (Dashboard.running_containers w) c then [hijack_event c] else [].
Proof.
  intros Hin. destruct (collect_char w) as (_ & Ha & _ & _). rewrite Ha.
  rewrite events_for_char by apply containers_list_nodup.
  by rewrite bool_decide_eq_true_2.
Qed.

Example best_path_reported :
  Spec.reports_best_path hijack_table (Py.lit "8.8.8.0/24") = true.
Proof. vm_compute. reflexivity. Qed.

Example second_best_not_reported :
  Spec.reports_best_path second_best_table (Py.lit "8.8.8.0/24") = false.
Proof. vm_compute. reflexivity. Qed.

(** C2, as stated, fails: as500 holds 8.8.8.0/24 as a valid route that is
    not its best path; no best-path route entry for the prefix is reported,
    and the cycle still emits one event for as500. *)
Lemma event_without_best_path :
  ~ (events_for as500
       (Dashboard.attacks (Dashboard.collect_network_data second_best_world)) =
       [hijack_event as500] <->
     Spec.reports_best_path second_best_table (Py.lit "8.8.8.0/24") = true).
Proof.
  intros [H _].
  assert (Hev : events_for as500
            (Dashboard.attacks (Dashboard.collect_network_data second_best_world)) =
          [hijack_event as500]) by (vm_compute; reflexivity).
  specialize (H Hev). vm_compute in H. discriminate H.
Qed.

(** C2 (amended): for every poll cycle and every polled node other than
    as300, the events naming the node are exactly one prefix_hijack event
    for 8.8.8.0/24 when the node is listed by [docker ps], its route query
    returned 0 and the text 8.8.8.0/24 occurs anywhere in the route table,
    and none otherwise; in particular a node that reports a best-path route
    entry for 8.8.8.0/24 gets exactly one event. *)
Theorem hijack_event_iff_prefix_text (w : world) (c : list N) :
  c ∈ Dashboard.containers_list -> c <> as300 ->
  let d := Dashboard.collect_network_data w in
  events_for c (Dashboard.attacks d) =
    (if Py.mem c (Dashboard.running_containers w) &&
        match show_ip_bgp w c with
        | Completed returncode route_output =>
            (returncode =? 0) && Py.contains (Py.lit "8.8.8.0/24") route_output
        | Raised => false
        end
     then [hijack_event c] else []) /\
  (forall route_output,
     Py.mem c (Dashboard.running_containers w) = true ->
     show_ip_bgp w c = Completed 0 route_output ->
     Spec.reports_best_path route_output (Py.lit "8.8.8.0/24") = true ->
     events_for c (Dashboard.attacks d) = [hijack_event c]).
Proof.
  intros Hin Hne. cbv zeta. rewrite events_for_cycle by done.
  unfold hijack_seen. rewrite (bool_decide_eq_false_2 (c = as300)) by done.
  split.
  - destruct (show_ip_bgp w c) as [rc out|]; [|done].
    cbn [negb]. by rewrite andb_true_r.
  - intros out Hrun Hout Hbest. rewrite Hrun, Hout.
    apply reports_best_path_contains in Hbest. rewrite Hbest. reflexivity.
Qed.

Lemma hijack_event_iff_prefix_text_witness :
  events_for as500
    (Dashboard.attacks (Dashboard.collect_network_data hijack_world)) =
  [hijack_event as500].
Proof.
  assert (Hin : as500 ∈ Dashboard.containers_list)
    by (apply (bool_decide_unpack _); vm_compute; exact I).
  assert (Hne : as500 <> as300) by (vm_compute; discriminate).
  destruct (hijack_event_iff_prefix_text hijack_world as500 Hin Hne) as [_ H].
  apply (H hijack_table); vm_compute; reflexivity.
Defined.

(** ** A node whose commands fail *)

Example timeout_cycle_as200 :
  Dashboard.containers (Dashboard.collect_network_data timeout_world) !! as200 =
  Some {| Dashboard.status := Py.lit "running";
          Dashboard.routes := 0;
          Dashboard.under_attack := false |}.
Proof. vm_compute. reflexivity. Qed.

Example timeout_cycle_as100 :
  Dashboard.containers (Dashboard.collect_network_data timeout_world) !! as100 =
  Some {| Dashboard.status := Py.lit "running";
          Dashboard.routes := 1;
          Dashboard.under_attack := false |} /\
  Dashboard.bgp_sessions (Dashboard.collect_network_data timeout_world) !! as100 =
  Some {| Dashboard.neighbors := 1; Dashboard.established := 1 |}.
Proof. vm_compute. split; reflexivity. Qed.

(** C6, as stated, fails: with the five containers listed by [docker ps] and
    both queries to as200 timing out, the cycle's entry for as200 is not
    one that is shown offline (its status is 'running'). *)
Lemma failed_node_not_offline :
  failed (bgp_summary timeout_world as200) = true /\
  failed (show_ip_bgp timeout_world as200) = true /\
  ~ (exists cd,
       Dashboard.containers (Dashboard.collect_network_data timeout_world) !! as200
         = Some cd /\
       Dashboard.shown_offline cd = true).
Proof.
  split; [reflexivity|]. split; [reflexivity|].
  intros (cd & Hcd & Hoff). rewrite timeout_cycle_as200 in Hcd.
  injection Hcd as <-. vm_compute in Hoff. discriminate Hoff.
Qed.

Lemma same_but_entries f w w' c :
  same_but f w w' -> c <> f ->
  let r := Dashboard.running_containers w in
  let r' := Dashboard.running_containers w' in
  r = r' /\ container_entry w r c = container_entry w' r' c /\
  sessions_entry w r c = sessions_entry w' r' c /\
  hijack_seen w r c = hijack_seen w' r' c.
Proof.
  intros (_ & Hps & Hb & Hr) Hne. cbv zeta.
  assert (Hrun : Dashboard.running_containers w = Dashboard.running_containers w')
    by (unfold Dashboard.running_containers; by rewrite Hps).
  unfold container_entry, sessions_entry, hijack_seen, routes_seen.
  rewrite <- Hrun, <- (Hb c Hne), <- (Hr c Hne). auto.
Qed.

(** The two queries of a node are guarded separately (l.392-415 and
    l.417-434): with only the summary query of as500 failing, its route
    query is still read, so as500 keeps its route count, its flag and its
    event, and only its session counts read zero. *)
Example summary_failure_keeps_routes :
  let d := Dashboard.collect_network_data summary_down_world in
  failed (bgp_summary summary_down_world as500) = true /\
  failed (show_ip_bgp summary_down_world as500) = false /\
  Dashboard.containers d !! as500 =
    Some {| Dashboard.status := Py.lit "running";
            Dashboard.routes := 1;
            Dashboard.under_attack := true |} /\
  Dashboard.bgp_sessions d !! as500 =
    Some {| Dashboard.neighbors := 0; Dashboard.established := 0 |} /\
  events_for as500 (Dashboard.attacks d) = [hijack_event as500].
Proof. vm_compute. repeat split; reflexivity. Qed.

(** What a failed summary query leaves: session counts that read zero. *)
Lemma failed_summary_counts w f :
  f ∈ Dashboard.containers_list ->
  failed (bgp_summary w f) = true ->
  let d := Dashboard.collect_network_data w in
  Dashboard.get_neighbors (Dashboard.bgp_sessions d) f = 0 /\
  Dashboard.get_established (Dashboard.bgp_sessions d) f = 0.
Proof.
  intros Hin Hb. cbv zeta.
  destruct (collect_char w) as (_ & _ & _ & Hs). cbv zeta in Hs.
  assert (Hse : match sessions_entry w (Dashboard.running_containers w) f with
                | Some s => Dashboard.neighbors s = 0 /\ Dashboard.established s = 0
                | None => True
                end).
  { unfold sessions_entry. destruct (Py.mem f _); [|done].
    destruct (bgp_summary w f) as [rc out|]; [|done].
    simpl in Hb. apply negb_true_iff in Hb. by rewrite Hb. }
  unfold Dashboard.get_neighbors, Dashboard.get_established.
  rewrite Hs, bool_decide_eq_true_2 by done.
  destruct (sessions_entry w _ f); [exact Hse | done].
Qed.

(** What a failed route query leaves: zero routes, no flag, no event. *)
Lemma failed_routes_entry w f :
  f ∈ Dashboard.containers_list ->
  failed (show_ip_bgp w f) = true ->
  let d := Dashboard.collect_network_data w in
  let running := Dashboard.running_containers w in
  Dashboard.containers d !! f =
    Some {| Dashboard.status :=
              if Py.mem f running then Py.lit "running" else Py.lit "stopped";
            Dashboard.routes := 0;
            Dashboard.under_attack := false |} /\
  Forall (fun a => Dashboard.target a <> f) (Dashboard.attacks d).
Proof.
  intros Hin Hr. cbv zeta.
  destruct (collect_char w) as (_ & Ha & Hc & _). cbv zeta in Ha, Hc.
  assert (Hhs : hijack_seen w (Dashboard.running_containers w) f = false).
  { unfold hijack_seen. destruct (show_ip_bgp w f) as [rc out|].
    - simpl in Hr. apply negb_true_iff in Hr. rewrite Hr.
      by rewrite !andb_false_l, andb_false_r.
    - by rewrite andb_false_r. }
  assert (Hrs : routes_seen w (Dashboard.running_containers w) f = 0).
  { unfold routes_seen. destruct (Py.mem f _); [|done].
    destruct (show_ip_bgp w f) as [rc out|]; [|done].
    simpl in Hr. apply negb_true_iff in Hr. by rewrite Hr. }
  split.
  - rewrite Hc, bool_decide_eq_true_2 by done.
    unfold container_entry. by rewrite Hhs, Hrs.
  - rewrite Ha. by apply no_event_for_unseen.
Qed.

(** C6 (amended): every poll cycle returns a value with an entry for each
    of the five containers, whichever queries fail (an exception such as a
    timeout, or a non-zero exit code), and a node is shown offline exactly
    when [docker ps] does not list it; the two queries of a node fail
    separately: a failed summary query leaves the node's session counts
    reading zero, a failed route query leaves the node with the status
    [docker ps] gives it, zero routes, no attack flag and no event; what
    the cycle reports for every other node is what it reports in any cycle
    that differs only in the failed node's answers. *)
Theorem failed_node_keeps_cycle (w : world) (f : list N) :
  f ∈ Dashboard.containers_list ->
  let d := Dashboard.collect_network_data w in
  let running := Dashboard.running_containers w in
  (forall c, c ∈ Dashboard.containers_list ->
     exists cd, Dashboard.containers d !! c = Some cd /\
                (Dashboard.shown_offline cd = true <-> Py.mem c running = false)) /\
  (failed (bgp_summary w f) = true ->
     Dashboard.get_neighbors (Dashboard.bgp_sessions d) f = 0 /\
     Dashboard.get_established (Dashboard.bgp_sessions d) f = 0) /\
  (failed (show_ip_bgp w f) = true ->
     Dashboard.containers d !! f =
       Some {| Dashboard.status :=
                 if Py.mem f running then Py.lit "running" else Py.lit "stopped";
               Dashboard.routes := 0;
               Dashboard.under_attack := false |} /\
     Forall (fun a => Dashboard.target a <> f) (Dashboard.attacks d)) /\
  (forall w' c, same_but f w w' -> c <> f ->
     let d' := Dashboard.collect_network_data w' in
     Dashboard.containers d' !! c = Dashboard.containers d !! c /\
     Dashboard.bgp_sessions d' !! c = Dashboard.bgp_sessions d !! c /\
     events_for c (Dashboard.attacks d') = events_for c (Dashboard.attacks d)).
Proof.
  intros Hin. cbv zeta.
  destruct (collect_char w) as (_ & Ha & Hc & Hs). cbv zeta in Ha, Hc, Hs.
  split; [|split; [|split]].
  - intros c Hcin. rewrite Hc, bool_decide_eq_true_2 by done.
    eexists. split; [reflexivity|].
    unfold Dashboard.shown_offline, container_entry. cbn [Dashboard.status].
    destruct (Py.mem c _).
    + rewrite bool_decide_eq_true_2 by done. cbn. split; discriminate.
    + rewrite bool_decide_eq_false_2 by (vm_compute; discriminate). done.
  - intros Hb. by apply failed_summary_counts.
  - intros Hr. by apply failed_routes_entry.
  - intros w' c Hsame Hne.
    destruct (collect_char w') as (_ & Ha' & Hc' & Hs'). cbv zeta in Ha', Hc', Hs'.
    destruct (same_but_entries f w w' c Hsame Hne) as (Hrun & He & Hse' & Hhs').
    cbv zeta in Hrun, He, Hse', Hhs'.
    rewrite Hc, Hc', Hs, Hs', Ha, Ha'.
    rewrite !events_for_char by apply containers_list_nodup.
    rewrite He, Hse', Hhs'. done.
Qed.

Lemma failed_node_keeps_cycle_witness :
  Dashboard.containers (Dashboard.collect_network_data timeout_world) !! as200 =
    Some {| Dashboard.status := Py.lit "running";
            Dashboard.routes := 0;
            Dashboard.under_attack := false |} /\
  Dashboard.get_established
    (Dashboard.bgp_sessions (Dashboard.collect_network_data timeout_world)) as200 = 0.
Proof.
  assert (Hin : as200 ∈ Dashboard.containers_list)
    by (apply (bool_decide_unpack _); vm_compute; exact I).
  destruct (failed_node_keeps_cycle timeout_world as200 Hin) as (_ & Hb & Hr & _).
  split; [exact (proj1 (Hr eq_refl)) | exact (proj2 (Hb eq_refl))].
Defined.

(** ** Link colours *)

Ltac decide_iff :=
  split; intros H; try discriminate H; try (destruct H; discriminate); auto.

Lemma filter_len_pos {A} (f : A -> bool) (l : list A) :
  (0 <? Py.len (List.filter f l)) = existsb f l.
Proof.
  unfold Py.len. induction l as [|x l IH]; [reflexivity|].
  cbn [List.filter existsb]. destruct (f x); [|exact IH].
  cbn [orb length]. apply Z.ltb_lt. lia.
Qed.

Lemma get_established_cycle w c :
  c ∈ Dashboard.containers_list ->
  (0 <? Dashboard.get_established
          (Dashboard.bgp_sessions (Dashboard.collect_network_data w)) c) =
  any_established w c.
Proof.
  intros Hin. destruct (collect_char w) as (_ & _ & _ & Hs). cbv zeta in Hs.
  unfold Dashboard.get_established, any_established.
  rewrite Hs, bool_decide_eq_true_2 by done. unfold sessions_entry.
  destruct (Py.mem c _); [|done]. cbn [andb].
  destruct (bgp_summary w c) as [rc out|]; [|done].
  destruct (rc =? 0); [|done]. cbn [andb].
  rewrite dashboard_parse_summary. cbn [Dashboard.established].
  apply filter_len_pos.
Qed.

Lemma entry_running w running c :
  bool_decide (Dashboard.status (container_entry w running c) = Py.lit "running") =
  Py.mem c running.
Proof.
  unfold container_entry. cbn [Dashboard.status]. destruct (Py.mem c running).
  - by rewrite bool_decide_eq_true_2.
  - rewrite bool_decide_eq_false_2; [done|]. vm_compute. discriminate.
Qed.

Lemma edges_in_containers_list :
  Forall (fun e => e.1 ∈ Dashboard.containers_list /\ e.2 ∈ Dashboard.containers_list)
    Dashboard.edges.
Proof.
  unfold Dashboard.edges.
  repeat (apply Forall_cons; split;
          [split; apply (bool_decide_unpack _); vm_compute; exact I|]).
  apply Forall_nil_2.
Qed.

Example crossed_link_green :
  Dashboard.edge_color
    (Dashboard.bgp_sessions (Dashboard.collect_network_data crossed_world))
    (as200, as400) = Dashboard.green.
Proof. vm_compute. reflexivity. Qed.

Example crossed_link_peers :
  Spec.established_peers (summary_of crossed_world as200) = [Py.lit "172.20.0.10"] /\
  Spec.established_peers (summary_of crossed_world as400) = [Py.lit "172.20.0.50"].
Proof. vm_compute. split; reflexivity. Qed.

(** C4, as stated, fails: as200 reports one session, with as100's address,
    and as400 one session, with as500's address; neither reports the other
    as a peer, and the declared link between as200 and as400 is computed
    healthy (green). *)
Lemma link_green_without_matching_peer :
  (as200, as400) ∈ Dashboard.edges /\
  ~ (Dashboard.edge_color
       (Dashboard.bgp_sessions (Dashboard.collect_network_data crossed_world))
       (as200, as400) = Dashboard.green <->
     Spec.link_healthy (summary_of crossed_world) (as200, as400) = true).
Proof.
  split.
  - apply (bool_decide_unpack _). vm_compute. exact I.
  - intros [H _]. specialize (H crossed_link_green).
    vm_compute in H. discriminate H.
Qed.

(** C4 (amended): for every declared link and every cycle's observations,
    [netsec_dashboard.py] computes the link healthy (green) if and only if
    each of the two endpoint nodes has an established count greater than
    zero, that is, each is listed by [docker ps], answered its summary query
    with exit code 0 and has at least one counted line without the marker,
    whoever the peer of that line is; [netsec_dashboard_simple.py] computes
    it healthy if and only if both endpoints are listed by [docker ps]. *)
Theorem link_green_iff_both_counts (w : world) :
  Forall (fun e =>
            Dashboard.edge_color
              (Dashboard.bgp_sessions (Dashboard.collect_network_data w)) e
              = Dashboard.green <->
            any_established w e.1 = true /\ any_established w e.2 = true)
    Dashboard.edges /\
  match DashboardSimple.update_data w with
  | Some s =>
      Forall (fun e =>
                DashboardSimple.connection_color (DashboardSimple.container_data s) e
                  = Dashboard.green <->
                Py.mem e.1 (Dashboard.running_containers w) = true /\
                Py.mem e.2 (Dashboard.running_containers w) = true)
        DashboardSimple.connections
  | None => True
  end.
Proof.
  split.
  - eapply Forall_impl; [apply edges_in_containers_list|].
    intros [src dst] [Hs Hd]. cbn [fst snd] in *.
    unfold Dashboard.edge_color.
    rewrite !get_established_cycle by done.
    destruct (any_established w src); destruct (any_established w dst); cbn;
      decide_iff.
  - unfold DashboardSimple.update_data, Dashboard.running_containers.
    destruct (docker_ps w) as [rc out|]; [|exact I].
    change [as100; as200; as300; as400; as500] with Dashboard.containers_list.
    match goal with
    | |- context [fold_left (DashboardSimple.poll_container w ?r) ?cs ?s] =>
        destruct (simple_loop_char w r cs s) as [_ Hc]; set (running := r) in *
    end.
    eapply Forall_impl; [apply edges_in_containers_list|].
    intros [src dst] [Hs Hd]. cbn [fst snd] in *.
    unfold DashboardSimple.connection_color, DashboardSimple.is_running.
    rewrite !Hc.
    rewrite (bool_decide_eq_true_2 _ Hs), (bool_decide_eq_true_2 _ Hd).
    rewrite !entry_running.
    destruct (Py.mem src running); destruct (Py.mem dst running); cbn;
      decide_iff.
Qed.

(** ** Route counts *)

Lemma marker_chars : Py.lit "*>" = [42%N; 62%N].
Proof. reflexivity. Qed.

Lemma startswith_marker s :
  Py.startswith (Py.lit "*>") s =
  match s with
  | a :: b :: _ => (42 =? a)%N && (62 =? b)%N
  | _ => false
  end.
Proof.
  rewrite marker_chars. destruct s as [|a [|b r]]; cbn [Py.startswith].
  - reflexivity.
  - apply andb_false_r.
  - by rewrite andb_true_r.
Qed.

Lemma count_from_here sub c r :
  Py.count_from sub 0 (c :: r) =
  if Py.startswith sub (c :: r)
  then 1 + Py.count_from sub (length sub - 1) r
  else Py.count_from sub 0 r.
Proof. reflexivity. Qed.

Lemma count_from_skip sub k c r :
  Py.count_from sub (S k) (c :: r) = Py.count_from sub k r.
Proof. reflexivity. Qed.

Lemma marker_positions_cons c r :
  marker_positions (c :: r) =
  b2z (Py.startswith (Py.lit "*>") (c :: r)) + marker_positions r.
Proof. reflexivity. Qed.

Lemma count_marker_from s :
  Py.count_from (Py.lit "*>") 0 s = marker_positions s /\
  forall c, Py.count_from (Py.lit "*>") 0 (c :: s) = marker_positions (c :: s).
Proof.
  induction s as [|c' r [IH0 IH1]].
  - split; [reflexivity|]. intros c.
    rewrite count_from_here, marker_positions_cons, startswith_marker. reflexivity.
  - split; [apply IH1|]. intros c.
    rewrite count_from_here, (marker_positions_cons c).
    destruct (Py.startswith (Py.lit "*>") (c :: c' :: r)) eqn:Hsw.
    + rewrite startswith_marker in Hsw.
      apply andb_true_iff in Hsw as [_ Hc']. apply N.eqb_eq in Hc'. subst c'.
      change (length (Py.lit "*>") - 1)%nat with 1%nat.
      rewrite count_from_skip, IH0, marker_positions_cons.
      rewrite (startswith_marker (62%N :: r)).
      destruct r as [|b r']; cbn [b2z andb N.eqb Pos.eqb]; lia.
    + rewrite IH1. cbn [b2z]. lia.
Qed.

Lemma count_marker s : Py.count (Py.lit "*>") s = marker_positions s.
Proof. apply count_marker_from. Qed.

Lemma marker_positions_nonneg s : 0 <= marker_positions s.
Proof.
  induction s as [|c s IH]; cbn [marker_positions]; [lia|].
  destruct (Py.startswith _ _); cbn [b2z]; lia.
Qed.

Lemma marker_positions_substr s :
  substr (Py.lit "*>") s -> 1 <= marker_positions s.
Proof.
  intros (pre & post & ->). induction pre as [|c pre IH].
  - rewrite marker_chars at 1. cbn [app marker_positions].
    rewrite (startswith_marker (42%N :: 62%N :: post)).
    pose proof (marker_positions_nonneg post).
    cbn [N.eqb Pos.eqb andb b2z].
    destruct (Py.startswith _ _); cbn [b2z]; lia.
  - cbn [app marker_positions]. destruct (Py.startswith _ _); cbn [b2z]; lia.
Qed.

Lemma second_char_of_first_line r w ws :
  Py.split_on Py.nl r = w :: ws ->
  Py.startswith [62%N] r = Py.startswith [62%N] w.
Proof.
  destruct r as [|x r']; cbn [Py.split_on].
  - by intros [= <- <-].
  - destruct (x =? Py.nl)%N eqn:Hx.
    + intros [= <- <-]. apply N.eqb_eq in Hx. by subst x.
    + destruct (Py.split_on Py.nl r'); by intros [= <- <-].
Qed.

(** No occurrence of the marker spans two lines. *)
Lemma marker_positions_lines s :
  marker_positions s = total (map marker_positions (Py.split_on Py.nl s)).
Proof.
  unfold total. induction s as [|c r IH]; [reflexivity|].
  cbn [Py.split_on marker_positions].
  destruct (c =? Py.nl)%N eqn:Hc.
  - apply N.eqb_eq in Hc. subst c. cbn [map foldr marker_positions].
    rewrite (startswith_marker (Py.nl :: r)).
    destruct r as [|b r']; cbn [b2z andb N.eqb Pos.eqb Py.nl] in *; lia.
  - destruct (Py.split_on Py.nl r) as [|w ws] eqn:Hr.
    + cbn [map foldr] in IH |- *. cbn [marker_positions].
      rewrite IH.
      assert (Hnil : r = []) by (destruct r as [|x r']; [done|];
        cbn in Hr; destruct (x =? Py.nl)%N; [done|];
        destruct (Py.split_on Py.nl r'); done).
      subst r. rewrite !startswith_marker. cbn [b2z]. lia.
    + cbn [map foldr] in IH |- *. cbn [marker_positions]. rewrite IH.
      assert (Hsw : Py.startswith (Py.lit "*>") (c :: r) =
                    Py.startswith (Py.lit "*>") (c :: w)).
      { rewrite marker_chars. cbn [Py.startswith].
        f_equal. apply (second_char_of_first_line r w ws Hr). }
      rewrite Hsw. lia.
Qed.

Lemma total_marker_positions_filter lines :
  Py.len (List.filter (fun l => Py.startswith (Py.lit "*>") (Py.strip l)) lines) <=
  total (map marker_positions lines).
Proof.
  unfold total, Py.len. induction lines as [|l lines IH]; [cbn; lia|].
  cbn [List.filter map foldr].
  pose proof (marker_positions_nonneg l).
  destruct (Py.startswith (Py.lit "*>") (Py.strip l)) eqn:Hsw; [|lia].
  assert (1 <= marker_positions l).
  { apply marker_positions_substr. apply substr_trans with (Py.strip l).
    - apply startswith_app in Hsw as [r ->]. exists [], r. reflexivity.
    - apply strip_substr. }
  cbn [length]. lia.
Qed.

Lemma routes_entry w c route_output :
  c ∈ Dashboard.containers_list ->
  Py.mem c (Dashboard.running_containers w) = true ->
  show_ip_bgp w c = Completed 0 route_output ->
  exists cd,
    Dashboard.containers (Dashboard.collect_network_data w) !! c = Some cd /\
    Dashboard.routes cd = Py.count (Py.lit "*>") route_output.
Proof.
  intros Hin Hrun Hout. destruct (collect_char w) as (_ & _ & Hc & _).
  cbv zeta in Hc. rewrite Hc, bool_decide_eq_true_2 by done.
  eexists. split; [reflexivity|].
  unfold container_entry, routes_seen. cbn [Dashboard.routes].
  by rewrite Hrun, Hout.
Qed.

Example marker_twice_count :
  Py.count (Py.lit "*>") marker_twice_table = 2 /\
  Py.len (Spec.best_path_lines marker_twice_table) = 1 /\
  Py.len (AttackSimulator.routes marker_twice_table) = 1.
Proof. vm_compute. repeat split; reflexivity. Qed.

(** C5, as stated, fails for the route count of the dashboards: on a route
    table of one line, which begins with the marker and holds it a second
    time, the observed route count of as100 is 2 and the number of lines
    beginning with the marker is 1. *)
Lemma route_count_not_marked_lines :
  ~ (forall cd,
       Dashboard.containers (Dashboard.collect_network_data marker_twice_world) !! as100
         = Some cd ->
       Dashboard.routes cd = Py.len (Spec.best_path_lines marker_twice_table)).
Proof.
  intros H.
  assert (Hcd : Dashboard.containers
                  (Dashboard.collect_network_data marker_twice_world) !! as100 =
                Some {| Dashboard.status := Py.lit "running";
                        Dashboard.routes := 2;
                        Dashboard.under_attack := false |})
    by (vm_compute; reflexivity).
  specialize (H _ Hcd). vm_compute in H. discriminate H.
Qed.

(** C5 (amended): for every raw route-table text, the route list of
    [working_attack_simulator.py] holds exactly the lines whose stripped
    text begins with the marker "*>", one entry per such line; the route
    count of the dashboards is the number of places of the text at which
    "*>" occurs, which is at least the number of those lines; and a polled
    node's route count is the same in every cycle in which it is listed by
    [docker ps] and answers with the same text. *)
Theorem route_count_is_marker_count (w : world) (c : list N) (route_output : list N) :
  c ∈ Dashboard.containers_list ->
  Py.mem c (Dashboard.running_containers w) = true ->
  show_ip_bgp w c = Completed 0 route_output ->
  (forall l, In l (AttackSimulator.routes route_output) <->
     In l (Py.split_on Py.nl route_output) /\
     Py.startswith (Py.lit "*>") (Py.strip l) = true) /\
  Py.len (AttackSimulator.routes route_output) =
    total (map (fun l => b2z (Py.startswith (Py.lit "*>") (Py.strip l)))
             (Py.split_on Py.nl route_output)) /\
  (exists cd,
     Dashboard.containers (Dashboard.collect_network_data w) !! c = Some cd /\
     Dashboard.routes cd = marker_positions route_output /\
     Py.len (AttackSimulator.routes route_output) <= Dashboard.routes cd) /\
  (forall w',
     Py.mem c (Dashboard.running_containers w') = true ->
     show_ip_bgp w' c = Completed 0 route_output ->
     Dashboard.routes <$> (Dashboard.containers (Dashboard.collect_network_data w') !! c) =
     Dashboard.routes <$> (Dashboard.containers (Dashboard.collect_network_data w) !! c)).
Proof.
  intros Hin Hrun Hout. split; [|split; [|split]].
  - intros l. unfold AttackSimulator.routes.
    apply (filter_In (fun l => Py.startswith (Py.lit "*>") (Py.strip l))).
  - unfold AttackSimulator.routes, total, Py.len.
    induction (Py.split_on Py.nl route_output) as [|l ls IH]; [reflexivity|].
    cbn [List.filter map foldr].
    destruct (Py.startswith (Py.lit "*>") (Py.strip l)); cbn [length b2z]; lia.
  - destruct (routes_entry w c route_output Hin Hrun Hout) as (cd & Hcd & Hr).
    exists cd. split; [exact Hcd|]. rewrite Hr, count_marker. split; [reflexivity|].
    rewrite marker_positions_lines. apply total_marker_positions_filter.
  - intros w' Hrun' Hout'.
    destruct (routes_entry w c route_output Hin Hrun Hout) as (cd & -> & Hr).
    destruct (routes_entry w' c route_output Hin Hrun' Hout') as (cd' & -> & Hr').
    cbn. congruence.
Qed.

Lemma route_count_is_marker_count_witness :
  exists cd,
    Dashboard.containers (Dashboard.collect_network_data marker_twice_world) !! as100
      = Some cd /\
    Dashboard.routes cd = marker_positions marker_twice_table /\
    Py.len (AttackSimulator.routes marker_twice_table) <= Dashboard.routes cd.
Proof.
  assert (Hin : as100 ∈ Dashboard.containers_list)
    by (apply (bool_decide_unpack _); vm_compute; exact I).
  assert (Hrun : Py.mem as100 (Dashboard.running_containers marker_twice_world) = true)
    by (vm_compute; reflexivity).
  destruct (route_count_is_marker_count marker_twice_world as100 marker_twice_table
              Hin Hrun eq_refl) as (_ & _ & H & _).
  exact H.
Defined.

(** ** The poll loop *)

Lemma run_while_running turns :
  Forall keeps_running turns ->
  Dashboard.run turns =
  (flat_map (fun t => Dashboard.body (Dashboard.what_happens t)) turns, false).
Proof.
  induction 1 as [|t turns Ht _ IH]; [reflexivity|].
  cbn [Dashboard.run flat_map]. unfold keeps_running in Ht. by rewrite Ht, IH.
Qed.

Lemma run_until_stop turns t rest :
  Forall keeps_running turns -> Dashboard.running_flag t = false ->
  Dashboard.run (turns ++ t :: rest) =
  (flat_map (fun t => Dashboard.body (Dashboard.what_happens t)) turns, true).
Proof.
  intros Hturns Ht. induction Hturns as [|t0 turns Ht0 _ IH].
  - cbn. by rewrite Ht.
  - cbn [app Dashboard.run flat_map]. unfold keeps_running in Ht0.
    by rewrite Ht0, IH.
Qed.

Example three_turns_run :
  Dashboard.run three_turns =
  ([Dashboard.Emit (Dashboard.collect_network_data hijack_world); Dashboard.Sleep 2;
    Dashboard.Print (Py.lit "Data collection error: boom"); Dashboard.Sleep 5;
    Dashboard.Emit (Dashboard.collect_network_data timeout_world); Dashboard.Sleep 2],
   false).
Proof. reflexivity. Qed.

(** C7: in every run of the poll loop of [netsec_dashboard.py], as long
    as no stop has been requested the loop goes through every turn,
    whichever of them raise an error, and has not exited; a turn in which
    an error is raised prints the error, emits nothing and sleeps 5
    seconds, longer than the 2 seconds a good turn sleeps; the loop exits
    at the first turn that finds the flag cleared. *)
Theorem loop_survives_errors (turns : list Dashboard.turn) :
  Forall keeps_running turns ->
  Dashboard.run turns =
    (flat_map (fun t => Dashboard.body (Dashboard.what_happens t)) turns, false) /\
  (forall e,
     Dashboard.body (Dashboard.Failed e) =
       [Dashboard.Print (Py.lit "Data collection error: " ++ e); Dashboard.Sleep 5] /\
     (forall d, Dashboard.Emit d ∉ Dashboard.body (Dashboard.Failed e))) /\
  (forall w e good bad,
     Dashboard.Sleep good ∈ Dashboard.body (Dashboard.Collected w) ->
     Dashboard.Sleep bad ∈ Dashboard.body (Dashboard.Failed e) ->
     good < bad) /\
  (forall t rest,
     Dashboard.running_flag t = false ->
     Dashboard.run (turns ++ t :: rest) =
       (flat_map (fun t => Dashboard.body (Dashboard.what_happens t)) turns, true)).
Proof.
  intros Hturns.
  split; [by apply run_while_running|].
  split; [|split].
  - intros e. split; [reflexivity|].
    intros d Hd. cbn [Dashboard.body] in Hd.
    apply elem_of_cons in Hd as [Hd|Hd]; [discriminate|].
    apply list_elem_of_singleton in Hd. discriminate.
  - intros w e good bad Hgood Hbad.
    assert (Hg : good = 2).
    { cbn in Hgood.
      apply elem_of_cons in Hgood as [Hg|Hg]; [discriminate|].
      apply list_elem_of_singleton in Hg. congruence. }
    cbn [Dashboard.body] in Hbad.
    apply elem_of_cons in Hbad as [Hb|Hb]; [discriminate|].
    apply list_elem_of_singleton in Hb. injection Hb as ->. lia.
  - intros t rest Ht. by apply run_until_stop.
Qed.

Lemma loop_survives_errors_witness :
  Dashboard.run three_turns =
  (flat_map (fun t => Dashboard.body (Dashboard.what_happens t)) three_turns, false).
Proof.
  assert (H : Forall keeps_running three_turns)
    by (repeat constructor).
  exact (proj1 (loop_survives_errors three_turns H)).
Defined.

(** * More of the code *)

(** ** The value of a poll cycle as a whole *)

Lemma filter_length_perm {A} (f : A -> bool) (l l' : list A) :
  l ≡ₚ l' -> length (List.filter f l) = length (List.filter f l').
Proof.
  induction 1 as [|x l l' _ IH|x y l|l l' l'' _ IH1 _ IH2]; cbn [List.filter].
  - reflexivity.
  - destruct (f x); cbn [length]; by rewrite IH.
  - by destruct (f x), (f y).
  - by rewrite IH1.
Qed.

Lemma total_perm (l l' : list Z) : l ≡ₚ l' -> total l = total l'.
Proof.
  unfold total.
  induction 1 as [|x l l' _ IH|x y l|l l' l'' _ IH1 _ IH2]; cbn [foldr]; lia.
Qed.

Lemma fst_entries {A} (f : list N -> A) (cs : list (list N)) :
  (map (fun c => (c, f c)) cs).*1 = cs.
Proof. induction cs as [|c cs IH]; [done|]. cbn. by rewrite IH. Qed.

(** The containers dict of a cycle: one entry per polled container. *)
Lemma containers_entries w :
  map_to_list (Dashboard.containers (Dashboard.collect_network_data w)) ≡ₚ
  map (fun c => (c, container_entry w (Dashboard.running_containers w) c))
    Dashboard.containers_list.
Proof.
  set (l := map (fun c => (c, container_entry w (Dashboard.running_containers w) c))
              Dashboard.containers_list).
  assert (Hnd : NoDup l.*1)
    by (unfold l; rewrite fst_entries; apply containers_list_nodup).
  rewrite <- (map_to_list_to_map l Hnd). f_equiv.
  apply map_eq. intros c. destruct (collect_char w) as (_ & _ & Hc & _).
  cbv zeta in Hc. rewrite Hc. case_bool_decide as Hin.
  - symmetry. apply elem_of_list_to_map; [done|].
    unfold l. apply list_elem_of_In, in_map_iff. exists c. split; [done|].
    by apply list_elem_of_In.
  - symmetry. apply not_elem_of_list_to_map. unfold l. by rewrite fst_entries.
Qed.

Lemma online_count_listed w :
  DashboardWindow.online_count (Dashboard.containers (Dashboard.collect_network_data w)) =
  Py.len (List.filter (fun c => Py.mem c (Dashboard.running_containers w))
            Dashboard.containers_list).
Proof.
  unfold DashboardWindow.online_count, Py.len. f_equal.
  rewrite (filter_length_perm _ _ _ (fmap_Permutation snd _ _ (containers_entries w))).
  change (snd <$> ?l) with (map snd l). rewrite map_map. cbn [snd].
  induction Dashboard.containers_list as [|c cs IH]; [reflexivity|].
  cbn [map List.filter]. rewrite entry_running.
  destruct (Py.mem c _); cbn [length]; by rewrite IH.
Qed.

Lemma filter_length_le {A} (f g : A -> bool) (l : list A) :
  (forall x, f x = true -> g x = true) ->
  (length (List.filter f l) <= length (List.filter g l))%nat.
Proof.
  intros Hfg. induction l as [|x l IH]; [done|]. cbn [List.filter].
  destruct (f x) eqn:Hf.
  - rewrite (Hfg x Hf). cbn [length]. lia.
  - destruct (g x); cbn [length]; lia.
Qed.

Lemma hijack_seen_listed w running c :
  hijack_seen w running c = true -> Py.mem c running = true.
Proof. unfold hijack_seen. by intros [? _]%andb_true_iff. Qed.

Lemma routes_seen_nonneg w running c : 0 <= routes_seen w running c.
Proof.
  unfold routes_seen. destruct (Py.mem c running); [|lia].
  destruct (show_ip_bgp w c) as [rc out|]; [|lia].
  destruct (rc =? 0); [|lia]. rewrite count_marker. apply marker_positions_nonneg.
Qed.

(** X1: in the value of every poll cycle an entry of the containers dict
    belongs to one of the five containers, has status 'running' or
    'stopped' and a route count that is not negative; a stopped container
    has no routes, no attack flag and no entry in the sessions dict, so only
    a running container is ever flagged. *)
Theorem cycle_entry_shape (w : world) (c : list N) (cd : Dashboard.container_data) :
  Dashboard.containers (Dashboard.collect_network_data w) !! c = Some cd ->
  c ∈ Dashboard.containers_list /\
  (Dashboard.status cd = Py.lit "running" \/ Dashboard.status cd = Py.lit "stopped") /\
  0 <= Dashboard.routes cd /\
  (Dashboard.status cd = Py.lit "stopped" ->
   Dashboard.routes cd = 0 /\ Dashboard.under_attack cd = false /\
   Dashboard.bgp_sessions (Dashboard.collect_network_data w) !! c = None) /\
  (Dashboard.under_attack cd = true -> Dashboard.status cd = Py.lit "running").
Proof.
  destruct (collect_char w) as (_ & _ & Hc & Hs). cbv zeta in Hc, Hs.
  rewrite Hc, Hs. case_bool_decide as Hin; [|done]. intros [= <-].
  split; [done|]. unfold container_entry, sessions_entry, routes_seen, hijack_seen.
  cbn [Dashboard.status Dashboard.routes Dashboard.under_attack].
  pose proof (routes_seen_nonneg w (Dashboard.running_containers w) c) as Hr.
  unfold routes_seen in Hr.
  destruct (Py.mem c (Dashboard.running_containers w)); cbn [andb].
  - split; [by left|]. split; [exact Hr|]. split; [|done].
    intros Hst. vm_compute in Hst. discriminate Hst.
  - split; [by right|]. split; [lia|]. split; [done|]. discriminate.
Qed.

Lemma cycle_entry_shape_witness :
  Dashboard.status
    {| Dashboard.status := Py.lit "running"; Dashboard.routes := 0;
       Dashboard.under_attack := false |} = Py.lit "running" \/
  Dashboard.status
    {| Dashboard.status := Py.lit "running"; Dashboard.routes := 0;
       Dashboard.under_attack := false |} = Py.lit "stopped".
Proof.
  exact (proj1 (proj2 (cycle_entry_shape timeout_world as200 _ timeout_cycle_as200))).
Defined.

(** X2: when [docker ps] raises or prints nothing but white space, the
    cycle reports each of the five containers stopped with no routes and no
    attack flag, an empty sessions dict and no attack, whatever the routers
    would answer. *)
Theorem docker_ps_down_all_stopped (w : world) :
  (docker_ps w = Raised \/
   exists returncode stdout,
     docker_ps w = Completed returncode stdout /\ Py.strip stdout = []) ->
  let d := Dashboard.collect_network_data w in
  (forall c, c ∈ Dashboard.containers_list ->
     Dashboard.containers d !! c =
     Some {| Dashboard.status := Py.lit "stopped"; Dashboard.routes := 0;
             Dashboard.under_attack := false |}) /\
  Dashboard.bgp_sessions d = ∅ /\
  Dashboard.attacks d = [] /\
  DashboardWindow.online_count (Dashboard.containers d) = 0.
Proof.
  intros Hps. cbv zeta.
  assert (Hrun : Dashboard.running_containers w = []).
  { unfold Dashboard.running_containers.
    destruct Hps as [-> | (rc & out & -> & Hout)]; [done|].
    by rewrite bool_decide_eq_true_2. }
  destruct (collect_char w) as (_ & Ha & Hc & Hs). cbv zeta in Ha, Hc, Hs.
  rewrite online_count_listed. rewrite Hrun in *.
  split; [|split; [|split]].
  - intros c Hin. by rewrite Hc, bool_decide_eq_true_2.
  - apply map_eq. intros c. rewrite Hs, lookup_empty. by case_bool_decide.
  - rewrite Ha. reflexivity.
  - reflexivity.
Qed.

Lemma docker_ps_down_all_stopped_witness :
  Dashboard.attacks
    (Dashboard.collect_network_data
       {| now := []; docker_ps := Raised;
          bgp_summary := fun _ => Completed 0 summary_row;
          show_ip_bgp := fun _ => Completed 0 hijack_table |}) = [].
Proof.
  refine (proj1 (proj2 (proj2 (docker_ps_down_all_stopped _ _)))).
  left. reflexivity.
Defined.

(** X3: the online count of the status bar is the number of the five
    containers that [docker ps] lists, a number from 0 to 5. *)
Theorem online_count_is_listed (w : world) :
  let n := DashboardWindow.online_count
             (Dashboard.containers (Dashboard.collect_network_data w)) in
  n = Py.len (List.filter (fun c => Py.mem c (Dashboard.running_containers w))
                Dashboard.containers_list) /\
  0 <= n <= 5.
Proof.
  cbv zeta. rewrite online_count_listed. split; [reflexivity|].
  unfold Py.len.
  pose proof (filter_length_le (fun c => Py.mem c (Dashboard.running_containers w))
                (fun _ => true) Dashboard.containers_list (fun _ _ => eq_refl)) as H.
  change (length (List.filter (fun _ => true) Dashboard.containers_list))
    with 5%nat in H.
  lia.
Qed.

(** ** What the widgets show *)

Lemma fold_insert_lookup {A} (f : list N -> A) (cs : list (list N))
    (m : gmap (list N) A) (c : list N) :
  fold_left (fun m x => <[x := f x]> m) cs m !! c =
  if bool_decide (c ∈ cs) then Some (f c) else m !! c.
Proof.
  revert m. induction cs as [|x cs IH]; intros m; cbn [fold_left].
  - by rewrite bool_decide_eq_false_2 by apply not_elem_of_nil.
  - rewrite IH. destruct (decide (c = x)) as [->|Hne].
    + rewrite (bool_decide_eq_true_2 (x ∈ x :: cs)) by by left.
      case_bool_decide; [done|]. by rewrite lookup_insert_eq.
    + rewrite lookup_insert_ne by done.
      assert (Heq : bool_decide (c ∈ x :: cs) = bool_decide (c ∈ cs)).
      { apply bool_decide_ext. rewrite elem_of_cons. intuition. }
      by rewrite Heq.
Qed.

Lemma cycle_lookups w c :
  c ∈ Dashboard.containers_list ->
  let r := Dashboard.running_containers w in
  let d := Dashboard.collect_network_data w in
  Dashboard.containers d !! c = Some (container_entry w r c) /\
  Dashboard.bgp_sessions d !! c = sessions_entry w r c /\
  events_for c (Dashboard.attacks d) =
    (if hijack_seen w r c then [hijack_event c] else []).
Proof.
  intros Hin. cbv zeta. destruct (collect_char w) as (_ & _ & Hc & Hs).
  cbv zeta in Hc, Hs. rewrite Hc, Hs, !bool_decide_eq_true_2 by done.
  split; [done|]. split; [done|]. by apply events_for_cycle.
Qed.

Lemma running_not_stopped : Py.lit "stopped" <> Py.lit "running".
Proof. vm_compute. discriminate. Qed.

(** X5: after a cycle of netsec_dashboard.py the label of each of the five
    containers reads UNDER ATTACK exactly when the cycle holds an event for
    that container, which is also exactly when its frame gets the red
    border; it reads OFFLINE exactly when [docker ps] does not list the
    container, and then the session label is "BGP: 0/0"; the label of as300
    never reads UNDER ATTACK. *)
Theorem status_labels_follow_events (w : world) (c : list N) :
  c ∈ Dashboard.containers_list ->
  let d := Dashboard.collect_network_data w in
  exists l,
    DashboardWindow.update_status (Dashboard.containers d) (Dashboard.bgp_sessions d) !! c
      = Some l /\
    (DashboardWindow.status_text l = Py.lit "UNDER ATTACK" <->
     events_for c (Dashboard.attacks d) = [hijack_event c]) /\
    (DashboardWindow.status_text l = Py.lit "UNDER ATTACK" <->
     DashboardWindow.frame l =
       Py.lit "QFrame { border: 2px solid red; background-color: #ffe6e6; }") /\
    (DashboardWindow.status_text l = Py.lit "OFFLINE" <->
     Py.mem c (Dashboard.running_containers w) = false) /\
    (DashboardWindow.status_text l = Py.lit "OFFLINE" ->
     DashboardWindow.bgp l = Py.lit "BGP: 0/0") /\
    (c = as300 -> DashboardWindow.status_text l <> Py.lit "UNDER ATTACK").
Proof.
  intros Hin. cbv zeta.
  destruct (cycle_lookups w c Hin) as (Hc & Hs & He). cbv zeta in Hc, Hs, He.
  unfold DashboardWindow.update_status.
  rewrite (fold_insert_lookup
             (fun x => DashboardWindow.update_label
                (Dashboard.containers (Dashboard.collect_network_data w) !! x)
                (Dashboard.bgp_sessions (Dashboard.collect_network_data w) !! x))).
  rewrite bool_decide_eq_true_2 by done. eexists. split; [reflexivity|].
  rewrite Hc, Hs, He.
  unfold DashboardWindow.update_label, container_entry, sessions_entry.
  cbn [Dashboard.status Dashboard.under_attack DashboardWindow.status_text
       DashboardWindow.frame DashboardWindow.bgp].
  pose proof (hijack_seen_listed w (Dashboard.running_containers w) c) as Hl.
  pose proof (hijack_seen_origin w (Dashboard.running_containers w)) as Ho.
  destruct (Py.mem c (Dashboard.running_containers w)).
  - rewrite bool_decide_eq_true_2 by done.
    destruct (hijack_seen w (Dashboard.running_containers w) c) eqn:Hhs; cbn [negb].
    + repeat split; try done; try (vm_compute; discriminate).
      intros ->. congruence.
    + repeat split; try done; try (vm_compute; discriminate).
  - rewrite (bool_decide_eq_false_2 _ running_not_stopped).
    destruct (hijack_seen w (Dashboard.running_containers w) c);
      [discriminate (Hl eq_refl)|].
    repeat split; try done; try (vm_compute; discriminate).
Qed.

Lemma status_labels_follow_events_witness :
  exists l,
    DashboardWindow.update_status
      (Dashboard.containers (Dashboard.collect_network_data hijack_world))
      (Dashboard.bgp_sessions (Dashboard.collect_network_data hijack_world)) !! as500
      = Some l /\
    (DashboardWindow.status_text l = Py.lit "UNDER ATTACK" <->
     events_for as500 (Dashboard.attacks (Dashboard.collect_network_data hijack_world))
       = [hijack_event as500]).
Proof.
  assert (Hin : as500 ∈ Dashboard.containers_list)
    by (apply (bool_decide_unpack _); vm_compute; exact I).
  destruct (status_labels_follow_events hijack_world as500 Hin) as (l & H1 & H2 & _).
  exists l. split; [exact H1 | exact H2].
Defined.

Lemma simple_update_lookup labels cd bd c :
  DashboardSimpleWindow.update_status labels cd bd !! c =
  (fun w => DashboardSimpleWindow.update_widgets w (cd !! c) (bd !! c)) <$> labels !! c.
Proof.
  unfold DashboardSimpleWindow.update_status. rewrite map_lookup_imap.
  by destruct (labels !! c).
Qed.

Lemma update_widgets_frame w data bgp_entry :
  DashboardSimpleWindow.frame (DashboardSimpleWindow.update_widgets w data bgp_entry) =
  DashboardSimpleWindow.frame w ++
  (if match data with
      | Some d => bool_decide (Dashboard.status d = Py.lit "running")
                  && Dashboard.under_attack d
      | None => false
      end
   then red_border else []).
Proof.
  unfold DashboardSimpleWindow.update_widgets.
  destruct data as [d|].
  - destruct (bool_decide (Dashboard.status d = Py.lit "running"));
      destruct (Dashboard.under_attack d); cbn [andb DashboardSimpleWindow.frame];
      by rewrite ?app_nil_r.
  - rewrite bool_decide_eq_false_2 by (vm_compute; discriminate).
    cbn [DashboardSimpleWindow.frame]. by rewrite app_nil_r.
Qed.

Lemma update_status_all_frame updates labels c w0 :
  labels !! c = Some w0 ->
  exists w1 extra,
    update_status_all updates labels !! c = Some w1 /\
    DashboardSimpleWindow.frame w1 = DashboardSimpleWindow.frame w0 ++ extra.
Proof.
  revert labels w0. induction updates as [|[cd bd] updates IH]; intros labels w0 Hw.
  - exists w0, []. split; [done|]. by rewrite app_nil_r.
  - cbn [update_status_all fold_left fst snd].
    pose proof (simple_update_lookup labels cd bd c) as Hl. rewrite Hw in Hl.
    cbn in Hl. destruct (IH _ _ Hl) as (w1 & extra & H1 & H2).
    exists w1. eexists. split; [exact H1|].
    rewrite H2, update_widgets_frame, <- app_assoc. reflexivity.
Qed.

(** X7: in netsec_dashboard_simple.py [StatusWidget.update_status] never
    removes anything from the style sheet of a frame: after any sequence of
    updates the sheet is the old one with text added at its end, so the red
    border rule added while a container is under attack is still in the
    sheet after every later update, also when the attack is over. *)
Theorem frame_style_never_reset
    (status_labels : gmap (list N) DashboardSimpleWindow.widgets)
    (c : list N) (w0 : DashboardSimpleWindow.widgets) :
  status_labels !! c = Some w0 ->
  (forall updates,
     exists w1 extra,
       update_status_all updates status_labels !! c = Some w1 /\
       DashboardSimpleWindow.frame w1 = DashboardSimpleWindow.frame w0 ++ extra) /\
  (forall cd bd d later,
     cd !! c = Some d ->
     Dashboard.status d = Py.lit "running" ->
     Dashboard.under_attack d = true ->
     exists w1,
       update_status_all ((cd, bd) :: later) status_labels !! c = Some w1 /\
       substr red_border (DashboardSimpleWindow.frame w1)).
Proof.
  intros Hw. split.
  - intros updates. by apply update_status_all_frame.
  - intros cd bd d later Hd Hst Hua.
    cbn [update_status_all fold_left fst snd].
    pose proof (simple_update_lookup status_labels cd bd c) as Hl.
    rewrite Hw in Hl. cbn in Hl.
    destruct (update_status_all_frame later _ c _ Hl) as (w1 & extra & H1 & H2).
    exists w1. split; [exact H1|].
    rewrite H2, update_widgets_frame, Hd, Hst, Hua.
    rewrite bool_decide_eq_true_2 by done. cbn [andb].
    exists (DashboardSimpleWindow.frame w0), extra. by rewrite <- app_assoc.
Qed.

Lemma frame_style_never_reset_witness :
  exists w1,
    update_status_all
      [({[as500 := flagged_entry]}, ∅); ({[as500 := cleared_entry]}, ∅)]
      {[as500 := plain_widgets]} !! as500 = Some w1 /\
    substr red_border (DashboardSimpleWindow.frame w1).
Proof.
  assert (Hw : ({[as500 := plain_widgets]} : gmap (list N) DashboardSimpleWindow.widgets)
               !! as500 = Some plain_widgets) by apply lookup_singleton_eq.
  destruct (frame_style_never_reset _ as500 plain_widgets Hw) as [_ H].
  apply (H {[as500 := flagged_entry]} ∅ flagged_entry
           [({[as500 := cleared_entry]}, ∅)]).
  - apply lookup_singleton_eq.
  - reflexivity.
  - reflexivity.
Defined.

(** ** The topology widget *)

Lemma update_nodes_fold (graph : gmap (list N) Topology.node_data)
    (l : list (list N * Dashboard.container_data)) (c : list N) :
  foldr
    (fun '(container, data) (graph : gmap (list N) Topology.node_data) =>
       if bool_decide (is_Some (graph !! container))
       then <[container := {| Topology.status := Dashboard.status data;
                              Topology.under_attack := Dashboard.under_attack data |}]>
              graph
       else graph)
    graph l !! c =
  match graph !! c with
  | Some nd =>
      Some (match (list_to_map l : gmap (list N) Dashboard.container_data) !! c with
            | Some d => {| Topology.status := Dashboard.status d;
                           Topology.under_attack := Dashboard.under_attack d |}
            | None => nd
            end)
  | None => None
  end.
Proof.
  induction l as [|[k d] l IH]; cbn [foldr list_to_map].
  - rewrite lookup_empty. by destruct (graph !! c).
  - match goal with
    | |- (if bool_decide (is_Some (?g !! k)) then _ else _) !! c = _ =>
        set (g' := g) in *
    end.
    destruct (decide (c = k)) as [->|Hne].
    + rewrite lookup_insert_eq. case_bool_decide as Hk.
      * rewrite lookup_insert_eq. rewrite IH in Hk.
        destruct (graph !! k); [done|]. by destruct Hk.
      * rewrite IH in Hk |- *. destruct (graph !! k); [|done].
        exfalso. apply Hk. eauto.
    + rewrite (lookup_insert_ne _ k c) by done.
      case_bool_decide; [rewrite lookup_insert_ne by done|]; exact IH.
Qed.

Lemma update_nodes_lookup (graph : gmap (list N) Topology.node_data)
    (container_data : gmap (list N) Dashboard.container_data) (c : list N) :
  Topology.update_nodes graph container_data !! c =
  match graph !! c with
  | Some nd =>
      Some (match container_data !! c with
            | Some d => {| Topology.status := Dashboard.status d;
                           Topology.under_attack := Dashboard.under_attack d |}
            | None => nd
            end)
  | None => None
  end.
Proof.
  unfold Topology.update_nodes. rewrite update_nodes_fold.
  by rewrite list_to_map_to_list.
Qed.

Lemma setup_graph_nodes c :
  c ∈ Dashboard.containers_list -> is_Some (Topology.setup_graph !! c).
Proof.
  intros Hin. unfold Topology.setup_graph.
  rewrite (fold_insert_lookup
             (fun _ => {| Topology.status := Py.lit "unknown";
                          Topology.under_attack := false |})).
  rewrite bool_decide_eq_true_2 by done. eauto.
Qed.

(** X8: whatever the graph of the topology widget held before, after
    [update_topology] with the value of a cycle each of the five nodes
    carries the status and the attack flag of that cycle, so a node is
    painted red exactly when the cycle holds an event for it; one HIJACK!
    arrow is drawn per event of the cycle, and every arrow points at the
    position of as500, (2, 0), whichever node the event names. *)
Theorem topology_follows_cycle (w : world) (graph : gmap (list N) Topology.node_data) :
  (forall c, c ∈ Dashboard.containers_list -> is_Some (graph !! c)) ->
  let d := Dashboard.collect_network_data w in
  let graph' := Topology.update_nodes graph (Dashboard.containers d) in
  (forall c, c ∈ Dashboard.containers_list ->
     exists cd nd,
       Dashboard.containers d !! c = Some cd /\ graph' !! c = Some nd /\
       Topology.status nd = Dashboard.status cd /\
       Topology.under_attack nd = Dashboard.under_attack cd /\
       ((Topology.node_colors nd).1 = Py.lit "red" <->
        events_for c (Dashboard.attacks d) = [hijack_event c])) /\
  Topology.annotations (Dashboard.attacks d) =
    repeat (Some (2, 0)) (length (Dashboard.attacks d)).
Proof.
  intros Hgraph. cbv zeta. split.
  - intros c Hin. destruct (cycle_lookups w c Hin) as (Hc & _ & He).
    cbv zeta in Hc, He. destruct (Hgraph c Hin) as [nd0 Hnd0].
    eexists. eexists. split; [exact Hc|].
    rewrite update_nodes_lookup, Hnd0, Hc. split; [reflexivity|].
    split; [reflexivity|]. split; [reflexivity|].
    rewrite He. unfold Topology.node_colors, container_entry.
    cbn [Topology.status Topology.under_attack Dashboard.status Dashboard.under_attack].
    pose proof (hijack_seen_listed w (Dashboard.running_containers w) c) as Hl.
    destruct (Py.mem c (Dashboard.running_containers w)).
    + rewrite bool_decide_eq_true_2 by done.
      destruct (hijack_seen w (Dashboard.running_containers w) c); cbn [fst];
        split; try done; vm_compute; discriminate.
    + rewrite (bool_decide_eq_false_2 _ running_not_stopped).
      destruct (hijack_seen w (Dashboard.running_containers w) c);
        [discriminate (Hl eq_refl)|].
      cbn [fst]. split; [vm_compute; discriminate | done].
  - destruct (collect_char w) as (_ & Ha & _ & _). rewrite Ha. clear Ha.
    unfold Topology.annotations.
    induction (List.filter _ Dashboard.containers_list) as [|c cs IH]; [reflexivity|].
    cbn [map List.filter hijack_event Dashboard.type].
    rewrite bool_decide_eq_true_2 by done.
    cbn [map length repeat]. f_equal. exact IH.
Qed.

Lemma topology_follows_cycle_witness :
  Topology.annotations (Dashboard.attacks (Dashboard.collect_network_data hijack_world)) =
  repeat (Some (2, 0))
    (length (Dashboard.attacks (Dashboard.collect_network_data hijack_world))).
Proof.
  exact (proj2 (topology_follows_cycle hijack_world Topology.setup_graph setup_graph_nodes)).
Defined.

(** ** Cleaning up *)

Lemma cleanup_loop_all result cs :
  Forall (ran result) cs ->
  DashboardWindow.cleanup_loop result cs = (map cleanup_exec cs, None).
Proof.
  induction 1 as [|c cs [rc Hc] _ IH]; [reflexivity|].
  cbn [DashboardWindow.cleanup_loop map]. by rewrite Hc, IH.
Qed.

Lemma cleanup_loop_stops result pre c post e :
  Forall (ran result) pre -> result c = Threw e ->
  DashboardWindow.cleanup_loop result (pre ++ c :: post) =
  (map cleanup_exec (pre ++ [c]), Some e).
Proof.
  intros Hpre Hc. induction Hpre as [|x pre [rc Hx] _ IH].
  - cbn. by rewrite Hc.
  - cbn [app DashboardWindow.cleanup_loop map]. by rewrite Hx, IH.
Qed.

Lemma ran_or_threw result cs :
  Forall (ran result) cs \/
  exists pre c post e,
    cs = pre ++ c :: post /\ Forall (ran result) pre /\ result c = Threw e.
Proof.
  induction cs as [|x cs IH]; [left; constructor|].
  destruct (result x) as [rc|e] eqn:Hx.
  - destruct IH as [Hall | (pre & c & post & e & -> & Hpre & Hc)].
    + left. constructor; [by exists rc | done].
    + right. exists (x :: pre), c, post, e. split; [done|].
      split; [|done]. constructor; [by exists rc | done].
  - right. exists [], x, cs, e. split; [done|]. split; [constructor | done].
Qed.

(** X9: [cleanup_attacks] of netsec_dashboard.py sends its command to the
    containers in order and stops at the first one whose command raises:
    the containers after it get no command and the log gets the error
    instead of the success line; when no command raises, all five get the
    command and success is logged, whatever the exit codes are. *)
Theorem cleanup_stops_at_first_error (result : list N -> sent) :
  let acts := DashboardWindow.cleanup_attacks result in
  let success := LogAttack (9989%N :: Py.lit " All attacks cleaned up successfully") in
  (Forall (ran result) Dashboard.containers_list ->
   acts = LogAttack (Py.lit "Cleaning up all attacks...")
          :: map cleanup_exec Dashboard.containers_list ++ [success]) /\
  (forall pre c post e,
     Dashboard.containers_list = pre ++ c :: post ->
     Forall (ran result) pre -> result c = Threw e ->
     acts = LogAttack (Py.lit "Cleaning up all attacks...")
            :: map cleanup_exec (pre ++ [c])
            ++ [LogAttack (10060%N :: Py.lit " Error during cleanup: " ++ e)]) /\
  (success ∈ acts <-> Forall (ran result) Dashboard.containers_list).
Proof.
  cbv zeta. unfold DashboardWindow.cleanup_attacks.
  assert (Hall : Forall (ran result) Dashboard.containers_list ->
                 DashboardWindow.cleanup_loop result Dashboard.containers_list =
                 (map cleanup_exec Dashboard.containers_list, None))
    by apply cleanup_loop_all.
  assert (Hstop : forall pre c post e,
             Dashboard.containers_list = pre ++ c :: post ->
             Forall (ran result) pre -> result c = Threw e ->
             DashboardWindow.cleanup_loop result Dashboard.containers_list =
             (map cleanup_exec (pre ++ [c]), Some e)).
  { intros pre c post e -> Hpre Hc. by apply cleanup_loop_stops. }
  split; [|split].
  - intros H. by rewrite (Hall H).
  - intros pre c post e Hcs Hpre Hc. by rewrite (Hstop pre c post e Hcs Hpre Hc).
  - split; [|intros H; rewrite (Hall H); set_solver].
    intros Hin.
    destruct (ran_or_threw result Dashboard.containers_list)
      as [H | (pre & c & post & e & Hcs & Hpre & Hc)]; [done|].
    exfalso. rewrite (Hstop pre c post e Hcs Hpre Hc) in Hin.
    apply elem_of_cons in Hin as [Hin|Hin]; [discriminate|].
    apply elem_of_app in Hin as [Hin|Hin].
    + apply list_elem_of_In, in_map_iff in Hin as (x & Hx & _). discriminate.
    + apply list_elem_of_singleton in Hin. discriminate.
Qed.

Example cleanup_third_times_out :
  DashboardWindow.cleanup_attacks third_times_out =
  [LogAttack (Py.lit "Cleaning up all attacks...");
   Exec as100 (Py.lit "configure terminal; router bgp 65100; no route-map POISON; no network 8.8.8.0/24; end; clear ip bgp * soft") 10;
   Exec as200 (Py.lit "configure terminal; router bgp 65200; no route-map POISON; no network 8.8.8.0/24; end; clear ip bgp * soft") 10;
   Exec as300 (Py.lit "configure terminal; router bgp 65300; no route-map POISON; no network 8.8.8.0/24; end; clear ip bgp * soft") 10;
   LogAttack (10060%N :: Py.lit " Error during cleanup: timed out")].
Proof. vm_compute. reflexivity. Qed.

(** ** The checks of the simulator scripts *)

Lemma filter_nil_forall {A} (f : A -> bool) (l : list A) :
  List.filter (fun x => negb (f x)) l = [] <-> Forall (fun x => f x = true) l.
Proof.
  induction l as [|x l IH]; cbn [List.filter].
  - split; [constructor | done].
  - destruct (f x) eqn:Hx; cbn [negb].
    + rewrite IH. split; [by constructor | by inversion 1].
    + split; [discriminate | inversion 1; congruence].
Qed.

Lemma filter_full_forall {A} (f : A -> bool) (l : list A) :
  length (List.filter f l) = length l <-> Forall (fun x => f x = true) l.
Proof.
  induction l as [|x l IH]; cbn [List.filter].
  - split; [constructor | done].
  - pose proof (filter_length_le f (fun _ => true) l (fun _ _ => eq_refl)) as Hle.
    assert (Hid : List.filter (fun _ : A => true) l = l)
      by (clear; induction l as [|y l IHl]; [done|]; cbn; by rewrite IHl).
    rewrite Hid in Hle.
    destruct (f x) eqn:Hx; cbn [length].
    + split.
      * intros [= H]. constructor; [done | by apply IH].
      * inversion 1; subst. f_equal. by apply IH.
    + split; [lia | inversion 1; congruence].
Qed.

Lemma check_containers_true a :
  (Simulator.check_containers a).2 = true <->
  exists returncode stdout,
    a = Answered returncode stdout /\
    Forall (fun c => Py.mem c (Py.split_on Py.nl (Py.strip stdout)) = true)
      Simulator.required.
Proof.
  unfold Simulator.check_containers. destruct a as [rc out|e].
  - pose proof (filter_nil_forall
                  (fun c => Py.mem c (Py.split_on Py.nl (Py.strip out)))
                  Simulator.required) as Hf.
    cbv beta in Hf.
    destruct (List.filter _ Simulator.required) as [|m ms].
    + cbn [snd]. split; [|done]. intros _. exists rc, out. split; [done|].
      by apply Hf.
    + cbn [snd]. split; [done|]. intros (? & ? & [= <- <-] & H).
      by apply Hf in H.
  - cbn. split; [done|]. intros (? & ? & ? & _). discriminate.
Qed.

(** X10: [check_containers] of working_attack_simulator.py returns True
    exactly when the dashboard cycle on the same [docker ps] answer reports
    all five containers running, that is, when the online count is 5. *)
Theorem check_containers_agrees (w : world) (a : answer) :
  docker_ps w = Simulator.as_proc a ->
  ((Simulator.check_containers a).2 = true <->
   Forall (fun c => Py.mem c (Dashboard.running_containers w) = true)
     Dashboard.containers_list) /\
  ((Simulator.check_containers a).2 = true <->
   DashboardWindow.online_count
     (Dashboard.containers (Dashboard.collect_network_data w)) = 5).
Proof.
  intros Hps.
  assert (H1 : (Simulator.check_containers a).2 = true <->
               Forall (fun c => Py.mem c (Dashboard.running_containers w) = true)
                 Dashboard.containers_list).
  { rewrite check_containers_true. unfold Dashboard.running_containers. rewrite Hps.
    destruct a as [rc out|e]; cbn [Simulator.as_proc].
    - case_bool_decide as Hout.
      + split.
        * intros (? & ? & [= <- <-] & H). rewrite Hout in H.
          apply Forall_cons in H as [H _]. vm_compute in H. discriminate H.
        * intros H. apply Forall_cons in H as [H _]. vm_compute in H. discriminate H.
      + split.
        * by intros (? & ? & [= <- <-] & H).
        * intros H. by exists rc, out.
    - split.
      + intros (? & ? & ? & _). discriminate.
      + intros H. apply Forall_cons in H as [H _]. vm_compute in H. discriminate H. }
  split; [exact H1|]. rewrite H1, online_count_listed.
  rewrite <- filter_full_forall. unfold Py.len.
  change (length Dashboard.containers_list) with 5%nat. lia.
Qed.

Lemma check_containers_agrees_witness :
  (Simulator.check_containers all_up_answer).2 = true <->
  DashboardWindow.online_count
    (Dashboard.containers (Dashboard.collect_network_data hijack_world)) = 5.
Proof.
  exact (proj2 (check_containers_agrees hijack_world all_up_answer eq_refl)).
Defined.

Ltac close_iff :=
  split; try done; try discriminate;
  try (intros [_ ?]; discriminate); try (intros [? _]; done).

Lemma contains_count_pos sub s :
  sub <> [] -> Py.contains sub s = true -> 1 <= Py.count_from sub 0 s.
Proof.
  intros Hsub. induction s as [|c s IH]; intros H.
  - destruct sub; [done | discriminate].
  - rewrite count_from_here.
    destruct (Py.startswith sub (c :: s)) eqn:Hsw.
    + pose proof (count_from_nonneg sub (length sub - 1) s). lia.
    + cbn [Py.contains] in H. rewrite Hsw in H. by apply IH.
Qed.

Lemma count_pos_contains sub s :
  sub <> [] -> (0 <? Py.count sub s) = Py.contains sub s.
Proof.
  intros Hsub. destruct sub as [|a sub']; [done|]. cbn [Py.count].
  destruct (Py.contains (a :: sub') s) eqn:Hc.
  - apply Z.ltb_lt. pose proof (contains_count_pos _ s Hsub Hc). lia.
  - apply Z.ltb_ge. destruct (Z_le_gt_dec (Py.count_from (a :: sub') 0 s) 0); [done|].
    assert (Hs : substr (a :: sub') s) by (apply (count_from_pos _ 0%nat); lia).
    apply contains_substr in Hs. congruence.
Qed.

(** X11: the two simulator scripts report a node's sessions as established
    on the same answers: working_attack_simulator.py, which tests
    [count('Established') > 0], and bgp_attack_simulator.py, which tests
    ['Established' in stdout], both do so exactly when the exit code is 0
    and the text occurs in the output, and the count they print is then at
    least 1. *)
Theorem established_tests_agree (as_name stdout : list N) (returncode : Z) :
  (head (Simulator.session_line as_name (Answered returncode stdout)) = Some 9989%N <->
   returncode = 0 /\ Py.contains (Py.lit "Established") stdout = true) /\
  (head (BGPSimulator.status_line as_name (Answered returncode stdout)) = Some 10003%N <->
   returncode = 0 /\ Py.contains (Py.lit "Established") stdout = true) /\
  (Py.contains (Py.lit "Established") stdout = true ->
   1 <= Py.count (Py.lit "Established") stdout).
Proof.
  assert (Hne : Py.lit "Established" <> []) by (vm_compute; discriminate).
  pose proof (count_pos_contains _ stdout Hne) as Hcp.
  split; [|split].
  - unfold Simulator.session_line. rewrite Hcp.
    destruct (Z.eqb_spec returncode 0) as [->|Hrc];
      [destruct (Py.contains _ stdout)|]; cbn [head]; close_iff.
  - unfold BGPSimulator.status_line.
    destruct (Z.eqb_spec returncode 0) as [->|Hrc]; cbn [andb];
      [destruct (Py.contains _ stdout)|]; cbn [head app]; close_iff.
  - intros Hc. rewrite Hc in Hcp. apply Z.ltb_lt in Hcp. lia.
Qed.

Example check_one_missing :
  Simulator.check_containers one_missing =
  ([Log (Py.lit "Missing containers: ['as300']") (Py.lit "WARNING");
    Log (Py.lit "Run: ./fixed-setup.sh") (Py.lit "WARNING")], false).
Proof. vm_compute. reflexivity. Qed.

Example route_lines_of_four :
  Simulator.route_lines as200 (Answered 0 four_routes) =
  [128203%N :: Py.lit " as200: Learning 4 routes";
   sample_line (Py.lit "10.1.0.0/24");
   sample_line (Py.lit "10.2.0.0/24");
   sample_line (Py.lit "10.3.0.0/24")].
Proof. vm_compute. reflexivity. Qed.

Lemma omap_length_le {A B} (f : A -> option B) (l : list A) :
  (length (omap f l) <= length l)%nat.
Proof.
  induction l as [|x l IH]; [done|]. cbn [omap list_omap].
  destruct (f x); cbn [length]; lia.
Qed.

(** X12: [show_bgp_status] of working_attack_simulator.py prints nothing
    and only logs the warnings of [check_containers] when a container is
    missing or [docker ps] fails; for a node it prints, after the count, at
    most three sample networks, and each of them is the second field of one
    of the first three best-path lines of the node's route table. *)
Theorem show_bgp_status_samples (w : Simulator.answers) (as_name : list N) (a : answer) :
  ((Simulator.check_containers (Simulator.ps w)).2 = false ->
   Simulator.show_bgp_status w = (Simulator.check_containers (Simulator.ps w)).1 /\
   Forall (fun o => exists message level, o = Log message level)
     (Simulator.show_bgp_status w)) /\
  (length (Simulator.route_lines as_name a) <= 4)%nat /\
  (forall line,
     line ∈ tail (Simulator.route_lines as_name a) ->
     exists stdout route network,
       a = Answered 0 stdout /\
       route ∈ take 3 (AttackSimulator.routes stdout) /\
       route ∈ Py.split_on Py.nl stdout /\
       Py.startswith (Py.lit "*>") (Py.strip route) = true /\
       AttackSimulator.network_of route = Some network /\
       line = sample_line network).
Proof.
  split; [|split].
  - unfold Simulator.show_bgp_status, Simulator.check_containers.
    destruct (Simulator.ps w) as [rc out|e].
    + destruct (List.filter _ Simulator.required) as [|m ms]; cbn [snd fst negb].
      * discriminate.
      * intros _. split; [reflexivity|]. repeat constructor; eauto.
    + intros _. cbn [snd fst negb]. split; [reflexivity|]. repeat constructor; eauto.
  - unfold Simulator.route_lines. destruct a as [rc out|e]; [|cbn; lia].
    destruct (rc =? 0); [|cbn; lia]. cbn [length].
    unfold Simulator.sample_lines.
    pose proof (omap_length_le
                  (fun route => match Py.split route with
                                | _ :: network :: _ =>
                                    Some (Py.lit "    " ++ [8226%N] ++ Py.lit " " ++ network)
                                | _ => None
                                end)
                  (take 3 (AttackSimulator.routes out))) as H1.
    pose proof (length_take (AttackSimulator.routes out) 3) as H2.
    cbv beta in H1. lia.
  - intros line Hline. unfold Simulator.route_lines in Hline.
    destruct a as [rc out|e]; [|by apply elem_of_nil in Hline].
    destruct (Z.eqb_spec rc 0) as [->|Hrc]; [|by apply elem_of_nil in Hline].
    cbn [tail] in Hline. unfold Simulator.sample_lines in Hline.
    apply list_elem_of_omap in Hline as (route & Hroute & Hnet).
    pose proof (subseteq_take 3 (AttackSimulator.routes out) route Hroute) as Hin.
    unfold AttackSimulator.routes in Hin.
    apply list_elem_of_In, filter_In in Hin as [Hin Hsw].
    destruct (Py.split route) as [|p0 [|network ps]] eqn:Hsp; try discriminate.
    injection Hnet as <-.
    exists out, route, network. split; [done|]. split; [done|].
    split; [by apply list_elem_of_In|]. split; [done|].
    unfold AttackSimulator.network_of. rewrite Hsp. done.
Qed.

(** ** The cycle of netsec_dashboard_simple.py *)

Lemma simple_poll_container_bgp w running s c :
  DashboardSimple.bgp_data (DashboardSimple.poll_container w running s c) =
  match sessions_entry w running c with
  | Some e => <[c := e]> (DashboardSimple.bgp_data s)
  | None => DashboardSimple.bgp_data s
  end.
Proof.
  unfold DashboardSimple.poll_container, sessions_entry,
    DashboardSimple.poll_routes, DashboardSimple.poll_summary.
  destruct s as [cs bs ats].
  destruct (Py.mem c running); [|reflexivity].
  destruct (bgp_summary w c) as [rc1 out1|]; [destruct (rc1 =? 0)|];
    (destruct (show_ip_bgp w c) as [rc2 out2|]; [destruct (rc2 =? 0)|]);
    cbn -[Py.lit Py.count Py.contains DashboardSimple.parse_summary
          Dashboard.parse_summary];
    try (destruct (Py.contains (Py.lit "8.8.8.0/24") out2 &&
                   negb (bool_decide (c = as300))));
    cbn -[Py.lit Py.count Py.contains DashboardSimple.parse_summary
          Dashboard.parse_summary];
    by rewrite ?simple_parse_summary.
Qed.

Lemma simple_loop_bgp w running cs s c :
  DashboardSimple.bgp_data
    (fold_left (DashboardSimple.poll_container w running) cs s) !! c =
  match (if bool_decide (c ∈ cs) then sessions_entry w running c else None) with
  | Some e => Some e
  | None => DashboardSimple.bgp_data s !! c
  end.
Proof.
  revert s. induction cs as [|c0 cs IH]; intros s; cbn [fold_left].
  - by rewrite bool_decide_eq_false_2 by apply not_elem_of_nil.
  - rewrite IH, simple_poll_container_bgp.
    destruct (decide (c = c0)) as [->|Hne].
    + rewrite (bool_decide_eq_true_2 (c0 ∈ c0 :: cs)) by by left.
      case_bool_decide.
      * by destruct (sessions_entry w running c0).
      * destruct (sessions_entry w running c0); [by rewrite lookup_insert_eq | done].
    + assert (Heq : bool_decide (c ∈ c0 :: cs) = bool_decide (c ∈ cs)).
      { apply bool_decide_ext. rewrite elem_of_cons. intuition. }
      rewrite Heq.
      destruct (sessions_entry w running c0); [by rewrite lookup_insert_ne | done].
Qed.

Lemma simple_cycle_data w s :
  DashboardSimple.update_data w = Some s ->
  DashboardSimple.container_data s =
    Dashboard.containers (Dashboard.collect_network_data w) /\
  DashboardSimple.bgp_data s =
    Dashboard.bgp_sessions (Dashboard.collect_network_data w) /\
  map DashboardSimple.target (DashboardSimple.attacks s) =
    map Dashboard.target (Dashboard.attacks (Dashboard.collect_network_data w)).
Proof.
  destruct (collect_char w) as (_ & Ha & Hc & Hs). cbv zeta in Ha, Hc, Hs.
  unfold DashboardSimple.update_data.
  destruct (docker_ps w) as [rc out|] eqn:Hps; [|discriminate].
  assert (Hrun : Dashboard.running_containers w =
                 if bool_decide (Py.strip out = []) then []
                 else Py.split_on Py.nl (Py.strip out))
    by (unfold Dashboard.running_containers; by rewrite Hps).
  rewrite <- Hrun. clear Hrun.
  change [as100; as200; as300; as400; as500] with Dashboard.containers_list.
  intros Heq. apply (inj Some) in Heq. subst s.
  match goal with
  | |- context [fold_left (DashboardSimple.poll_container w ?r) ?cs ?s] =>
      destruct (simple_loop_char w r cs s) as [Ha' Hc'];
      pose proof (fun c => simple_loop_bgp w r cs s c) as Hb'
  end.
  split; [|split].
  - apply map_eq. intros c. by rewrite Hc', Hc.
  - apply map_eq. intros c. rewrite Hb', Hs. cbn [DashboardSimple.bgp_data].
    rewrite lookup_empty.
    destruct (bool_decide (c ∈ Dashboard.containers_list)); [|done].
    by destruct (sessions_entry _ _ c).
  - rewrite Ha', Ha. cbn [DashboardSimple.attacks app]. by rewrite !map_map.
Qed.

(** X13: whenever [docker ps] does not raise, a cycle of
    netsec_dashboard_simple.py computes the same container dict and the
    same sessions dict as a cycle of netsec_dashboard.py on the same
    answers, and events for the same containers in the same order; when
    [docker ps] raises, the simple variant updates nothing, where
    netsec_dashboard.py reports five stopped containers. *)
Theorem simple_cycle_agrees (w : world) :
  match DashboardSimple.update_data w with
  | Some s =>
      DashboardSimple.container_data s =
        Dashboard.containers (Dashboard.collect_network_data w) /\
      DashboardSimple.bgp_data s =
        Dashboard.bgp_sessions (Dashboard.collect_network_data w) /\
      map DashboardSimple.target (DashboardSimple.attacks s) =
        map Dashboard.target (Dashboard.attacks (Dashboard.collect_network_data w))
  | None =>
      docker_ps w = Raised /\
      DashboardWindow.online_count
        (Dashboard.containers (Dashboard.collect_network_data w)) = 0
  end.
Proof.
  destruct (DashboardSimple.update_data w) as [s|] eqn:Hs.
  - by apply simple_cycle_data.
  - unfold DashboardSimple.update_data in Hs.
    destruct (docker_ps w) as [rc out|] eqn:Hps; [discriminate|].
    split; [done|].
    assert (Hrun : Dashboard.running_containers w = [])
      by (unfold Dashboard.running_containers; by rewrite Hps).
    rewrite online_count_listed, Hrun. reflexivity.
Qed.

Lemma attacks_length w :
  length (Dashboard.attacks (Dashboard.collect_network_data w)) =
  length (List.filter (hijack_seen w (Dashboard.running_containers w))
            Dashboard.containers_list).
Proof.
  destruct (collect_char w) as (_ & Ha & _ & _). by rewrite Ha, length_map.
Qed.

Lemma flagged_at_most_four w running :
  (length (List.filter (hijack_seen w running) Dashboard.containers_list) <= 4)%nat.
Proof.
  unfold Dashboard.containers_list. cbn [List.filter].
  rewrite (hijack_seen_origin w running).
  destruct (hijack_seen w running as100), (hijack_seen w running as200),
    (hijack_seen w running as400), (hijack_seen w running as500); cbn [length]; lia.
Qed.

Lemma total_nonneg (l : list Z) : Forall (fun z => 0 <= z) l -> 0 <= total l.
Proof. unfold total. induction 1; cbn [foldr]; lia. Qed.

(** X14: when [docker ps] does not raise, the status bar of
    netsec_dashboard_simple.py shows as online count the number of the five
    containers [docker ps] lists, as attack count a number that is at most
    4 and at most the online count, and as route total the sum of the
    marker counts of the route tables of the listed containers that
    answered with exit code 0, which is never negative. *)
Theorem simple_status_bar (w : world) (s : DashboardSimple.state) :
  DashboardSimple.update_data w = Some s ->
  let r := Dashboard.running_containers w in
  DashboardSimpleWindow.online s =
    Py.len (List.filter (fun c => Py.mem c r) Dashboard.containers_list) /\
  DashboardSimpleWindow.online s <= 5 /\
  DashboardSimpleWindow.attack_count s <= DashboardSimpleWindow.online s /\
  DashboardSimpleWindow.attack_count s <= 4 /\
  DashboardSimpleWindow.total_routes s =
    total (map (routes_seen w r) Dashboard.containers_list) /\
  0 <= DashboardSimpleWindow.total_routes s.
Proof.
  intros Hs. cbv zeta. destruct (simple_cycle_data w s Hs) as (Hc & _ & Ht).
  assert (Hon : DashboardSimpleWindow.online s =
                Py.len (List.filter (fun c => Py.mem c (Dashboard.running_containers w))
                          Dashboard.containers_list)).
  { unfold DashboardSimpleWindow.online. rewrite Hc. apply online_count_listed. }
  assert (Hat : DashboardSimpleWindow.attack_count s =
                Py.len (List.filter (hijack_seen w (Dashboard.running_containers w))
                          Dashboard.containers_list)).
  { unfold DashboardSimpleWindow.attack_count, Py.len. f_equal.
    apply (f_equal length) in Ht. rewrite !length_map in Ht.
    rewrite Ht. apply attacks_length. }
  assert (Htot : DashboardSimpleWindow.total_routes s =
                 total (map (routes_seen w (Dashboard.running_containers w))
                          Dashboard.containers_list)).
  { unfold DashboardSimpleWindow.total_routes. rewrite Hc.
    change (foldr Z.add 0 ?l) with (total l).
    rewrite (total_perm _ _ (fmap_Permutation _ _ _ (containers_entries w))).
    change (?f <$> ?l) with (map f l). rewrite map_map. reflexivity. }
  split; [exact Hon|]. rewrite Hon, Hat, Htot. unfold Py.len.
  pose proof (filter_length_le (fun c => Py.mem c (Dashboard.running_containers w))
                (fun _ => true) Dashboard.containers_list (fun _ _ => eq_refl)) as H5.
  change (length (List.filter (fun _ => true) Dashboard.containers_list))
    with 5%nat in H5.
  pose proof (filter_length_le _ _ Dashboard.containers_list
                (hijack_seen_listed w (Dashboard.running_containers w))) as Hle.
  pose proof (flagged_at_most_four w (Dashboard.running_containers w)) as H4.
  split; [lia|]. split; [lia|]. split; [lia|]. split; [reflexivity|].
  apply total_nonneg, Forall_forall. intros z Hz.
  apply list_elem_of_In, in_map_iff in Hz as (c & <- & _). apply routes_seen_nonneg.
Qed.

Lemma simple_status_bar_witness :
  exists s, DashboardSimple.update_data hijack_world = Some s /\
            DashboardSimpleWindow.attack_count s <= 4.
Proof.
  eexists. split; [reflexivity|].
  exact (proj1 (proj2 (proj2 (proj2 (simple_status_bar hijack_world _ eq_refl))))).
Defined.

(** ** Texts put one after the other *)

Lemma split_on_app sep a b :
  Py.split_on sep (a ++ sep :: b) = Py.split_on sep a ++ Py.split_on sep b.
Proof.
  induction a as [|c a IH]; cbn [app Py.split_on].
  - by rewrite N.eqb_refl.
  - destruct (c =? sep)%N; [by rewrite IH|]. rewrite IH.
    destruct (Py.split_on sep a) as [|x xs] eqn:Ha; [|reflexivity].
    exfalso. exact (split_on_nonempty _ _ Ha).
Qed.

Lemma counted_unmarked_tolerant :
  tolerant (fun l => counted_line l && negb (marked_line l)).
Proof.
  destruct counted_line_tolerant as (H0 & Hl & Hr).
  split; [by rewrite H0|]. split.
  - intros c l Hc. by rewrite Hl, marked_line_space_l.
  - intros l ws Hws. by rewrite Hr, marked_line_space_r.
Qed.

Lemma filter_app_len {A} (f : A -> bool) (l l' : list A) :
  Py.len (List.filter f (l ++ l')) = Py.len (List.filter f l) + Py.len (List.filter f l').
Proof. unfold Py.len. rewrite List.filter_app, length_app. lia. Qed.

Lemma total_app (l l' : list Z) : total (l ++ l') = total l + total l'.
Proof. unfold total. induction l as [|x l IH]; cbn [app foldr]; lia. Qed.

(** X15: the parsers add up over lines: for two texts put one after the
    other on separate lines, the neighbour count, the established count
    and the route count of the whole are the sums of the counts of the two
    texts. *)
Theorem counts_add_over_lines (a b : list N) :
  Dashboard.neighbors (Dashboard.parse_summary (a ++ Py.nl :: b)) =
    Dashboard.neighbors (Dashboard.parse_summary a) +
    Dashboard.neighbors (Dashboard.parse_summary b) /\
  Dashboard.established (Dashboard.parse_summary (a ++ Py.nl :: b)) =
    Dashboard.established (Dashboard.parse_summary a) +
    Dashboard.established (Dashboard.parse_summary b) /\
  Py.count (Py.lit "*>") (a ++ Py.nl :: b) =
    Py.count (Py.lit "*>") a + Py.count (Py.lit "*>") b.
Proof.
  rewrite !dashboard_parse_summary.
  cbn [Dashboard.neighbors Dashboard.established].
  rewrite !(strip_keeps_filter _ _ counted_line_tolerant).
  rewrite !(strip_keeps_filter _ _ counted_unmarked_tolerant).
  rewrite !count_marker, !marker_positions_lines.
  rewrite split_on_app, !filter_app_len, map_app, total_app. auto.
Qed.

(** ** What a run of the poll loop emits *)

Lemma body_emitted c :
  emitted (Dashboard.body c) =
  match c with
  | Dashboard.Collected w => [Dashboard.collect_network_data w]
  | Dashboard.Failed _ => []
  end.
Proof. by destruct c. Qed.

Lemma body_slept c :
  slept (Dashboard.body c) =
  match c with
  | Dashboard.Collected _ => 2
  | Dashboard.Failed _ => 5
  end.
Proof. by destruct c. Qed.

Lemma emitted_app a b : emitted (a ++ b) = emitted a ++ emitted b.
Proof.
  unfold emitted. induction a as [|x a IH]; [done|].
  cbn [app omap list_omap]. destruct x; cbn; by rewrite ?IH.
Qed.

Lemma slept_app a b : slept (a ++ b) = slept a + slept b.
Proof. unfold slept. by rewrite map_app, total_app. Qed.

(** X16: while no stop is requested, a run of the poll loop emits exactly
    the values of the turns in which the collection returned, in their
    order, and none for a turn that raised; it sleeps 2 seconds for each of
    the former and 5 for each of the latter, between 2 and 5 seconds a
    turn. *)
Theorem run_emits_good_turns (turns : list Dashboard.turn) :
  Forall keeps_running turns ->
  let acts := (Dashboard.run turns).1 in
  emitted acts = map Dashboard.collect_network_data (collected turns) /\
  slept acts =
    2 * Py.len (collected turns) + 5 * (Py.len turns - Py.len (collected turns)) /\
  2 * Py.len turns <= slept acts <= 5 * Py.len turns.
Proof.
  intros Hturns. cbv zeta. rewrite (run_while_running turns Hturns). cbn [fst].
  clear Hturns. unfold Py.len.
  induction turns as [|t turns (IH1 & IH2 & IH3)].
  - cbn. repeat split; lia.
  - cbn [flat_map]. rewrite emitted_app, slept_app, body_emitted, body_slept.
    unfold collected in *. cbn [omap list_omap length].
    destruct (Dashboard.what_happens t); cbn [map app length];
      rewrite ?IH1; repeat split; try done; lia.
Qed.

Lemma run_emits_good_turns_witness :
  emitted (Dashboard.run three_turns).1 =
  map Dashboard.collect_network_data (collected three_turns).
Proof.
  assert (H : Forall keeps_running three_turns) by (repeat constructor).
  exact (proj1 (run_emits_good_turns three_turns H)).
Defined.

(** ** Missing session entries *)

(** X17: a polled container has no entry in the sessions dict of a cycle
    exactly when [docker ps] does not list it or its summary query returned
    a non-zero exit code; when the query raised, the entry holds two zeros.
    Either way the widgets of netsec_dashboard.py show "BGP: 0/0". *)
Theorem sessions_entry_presence (w : world) (c : list N) :
  c ∈ Dashboard.containers_list ->
  let d := Dashboard.collect_network_data w in
  let zeros := {| Dashboard.neighbors := 0; Dashboard.established := 0 |} in
  (Dashboard.bgp_sessions d !! c = None <->
   Py.mem c (Dashboard.running_containers w) = false \/
   exists returncode stdout,
     bgp_summary w c = Completed returncode stdout /\ returncode <> 0) /\
  (Py.mem c (Dashboard.running_containers w) = true -> bgp_summary w c = Raised ->
   Dashboard.bgp_sessions d !! c = Some zeros) /\
  (Dashboard.bgp_sessions d !! c = None \/ Dashboard.bgp_sessions d !! c = Some zeros ->
   exists l,
     DashboardWindow.update_status (Dashboard.containers d) (Dashboard.bgp_sessions d) !! c
       = Some l /\
     DashboardWindow.bgp l = Py.lit "BGP: 0/0").
Proof.
  intros Hin. cbv zeta.
  destruct (cycle_lookups w c Hin) as (_ & Hs & _). cbv zeta in Hs.
  split; [|split].
  - rewrite Hs. unfold sessions_entry.
    destruct (Py.mem c (Dashboard.running_containers w)); [|by split; [left|]].
    destruct (bgp_summary w c) as [rc out|].
    + destruct (Z.eqb_spec rc 0) as [->|Hrc].
      * split; [discriminate|]. intros [?|(? & ? & [= <- <-] & ?)]; done.
      * split; [|done]. intros _. right. by exists rc, out.
    + split; [discriminate|]. intros [?|(? & ? & ? & _)]; done.
  - intros Hrun Hraised. rewrite Hs. unfold sessions_entry. by rewrite Hrun, Hraised.
  - intros Hcase. unfold DashboardWindow.update_status.
    rewrite (fold_insert_lookup
               (fun x => DashboardWindow.update_label
                  (Dashboard.containers (Dashboard.collect_network_data w) !! x)
                  (Dashboard.bgp_sessions (Dashboard.collect_network_data w) !! x))).
    rewrite bool_decide_eq_true_2 by done. eexists. split; [reflexivity|].
    unfold DashboardWindow.update_label. cbn [DashboardWindow.bgp].
    destruct Hcase as [-> | ->]; reflexivity.
Qed.

Lemma sessions_entry_presence_witness :
  Dashboard.bgp_sessions (Dashboard.collect_network_data timeout_world) !! as200 =
  Some {| Dashboard.neighbors := 0; Dashboard.established := 0 |}.
Proof.
  assert (Hin : as200 ∈ Dashboard.containers_list)
    by (apply (bool_decide_unpack _); vm_compute; exact I).
  destruct (sessions_entry_presence timeout_world as200 Hin) as (_ & H & _).
  apply H; vm_compute; reflexivity.
Defined.
